(** * shegymz: payment webhook, subscription endpoint and notification emails

    A shallow embedding of
      - src/lib/paystack.ts            (gateway client, webhook signature check)
      - src/lib/email.ts               (notification emails)
      - src/app/api/webhook/paystack/route.ts   (POST /api/webhook/paystack)
      - src/app/api/subscribe/route.ts          (POST /api/subscribe)
    The routes are JavaScript: values are dynamically typed, property access
    on [null]/[undefined] throws, and [try]/[catch] decides most of the
    control flow.  The embedding keeps all of that: JSON-shaped values, an
    exception-and-trace monad, and the outside world (gateway, mail provider,
    crypto, clock, environment variables) as a record of oracles. *)

From Stdlib Require Import ZArith String Ascii List Bool Lia.
From stdpp Require Import base option list strings gmap.

Set Warnings "-register-all".
Local Open Scope string_scope.
Local Open Scope list_scope.
Local Open Scope Z_scope.

(** ** The fragment of JavaScript the routes rely on *)
Module JS.

(** Values that [JSON.parse] produces, plus [undefined].  Numbers are the
    integers a double holds exactly (gateway amounts and ids are integral
    minor units, far below 2^53); an object is a finite map from property
    names to values. *)
Inductive value : Type :=
| VUndefined
| VNull
| VBool (b : bool)
| VNum (n : Z)
| VStr (s : string)
| VArr (items : list value)
| VObj (props : gmap string value).

(** What a [throw] carries.  [AxiosError r] is the rejection of an HTTP
    call, [r] being its [error.response] ([VUndefined] when the peer was
    never reached). *)
Inductive exn : Type :=
| TypeError
| SyntaxError
| AxiosError (response : value)
| PlunkError.

Inductive outcome (A : Type) : Type :=
| Ok (a : A)
| Throw (e : exn).
Arguments Ok {A} a.
Arguments Throw {A} e.

(** [!!v] *)
Definition truthy (v : value) : bool :=
  match v with
  | VUndefined | VNull => false
  | VBool b => b
  | VNum n => negb (n =? 0)
  | VStr s => negb (String.eqb s "")
  | VArr _ | VObj _ => true
  end.

Definition nullish (v : value) : bool :=
  match v with
  | VUndefined | VNull => true
  | _ => false
  end.

(** [a || b] *)
Definition or_else (a b : value) : value := if truthy a then a else b.

(** [v.p] for the property names of the sources: none of them is an own
    or inherited property of a string, number, boolean or array, so on
    those the access yields [undefined]. *)
Definition get (v : value) (p : string) : outcome value :=
  match v with
  | VUndefined | VNull => Throw TypeError
  | VObj props => Ok (default VUndefined (props !! p))
  | _ => Ok VUndefined
  end.

(** [v?.p] *)
Definition opt_get (v : value) (p : string) : value :=
  match get v p with
  | Ok x => x
  | Throw _ => VUndefined
  end.

(** [v === 'lit'] *)
Definition is_str (v : value) (lit : string) : bool :=
  match v with
  | VStr s => String.eqb s lit
  | _ => false
  end.

(** Decimal digits of a non-negative integer, most significant first.  The
    fuel is the bit length, which bounds the number of decimal digits. *)
Fixpoint digits_fuel (fuel : nat) (n : Z) (acc : string) : string :=
  let d := String (ascii_of_nat (48 + Z.to_nat (n mod 10))) acc in
  match fuel with
  | O => d
  | S fuel' => if n <? 10 then d else digits_fuel fuel' (n / 10) d
  end.

Definition digits (n : Z) : string :=
  digits_fuel (Z.to_nat (Z.log2 n)) n "".

(** [String(n)] for an integer [n]. *)
Definition num_to_string (n : Z) : string :=
  if n <? 0 then "-" +:+ digits (- n) else digits n.

Fixpoint join (sep : string) (parts : list string) : string :=
  match parts with
  | [] => ""
  | [s] => s
  | s :: rest => s +:+ sep +:+ join sep rest
  end.

(** [`${v}`]: ToString.  An array prints its elements joined by commas,
    [null] and [undefined] elements printing as nothing. *)
Fixpoint to_string (v : value) : string :=
  match v with
  | VUndefined => "undefined"
  | VNull => "null"
  | VBool true => "true"
  | VBool false => "false"
  | VNum n => num_to_string n
  | VStr s => s
  | VArr items =>
      join "," (List.map (fun x => if nullish x then "" else to_string x) items)
  | VObj _ => "[object Object]"
  end.

(** ASCII white space; strings are byte strings, and the multi-byte
    Unicode spaces that [trim] also removes are left in place. *)
Definition is_space (c : ascii) : bool :=
  let n := nat_of_ascii c in
  ((9 <=? n)%nat && (n <=? 13)%nat) || (n =? 32)%nat.

Fixpoint trim_start (s : string) : string :=
  match s with
  | String c rest => if is_space c then trim_start rest else s
  | EmptyString => s
  end.

Fixpoint trim_end (s : string) : string :=
  match s with
  | EmptyString => EmptyString
  | String c rest =>
      match trim_end rest with
      | EmptyString => if is_space c then EmptyString else String c EmptyString
      | rest' => String c rest'
      end
  end.

(** [s.trim()] *)
Definition trim (s : string) : string := trim_end (trim_start s).

(** [s.split(' ')] *)
Fixpoint split_space (s : string) : list string :=
  match s with
  | EmptyString => [EmptyString]
  | String c rest =>
      if Ascii.eqb c " "%char then EmptyString :: split_space rest
      else match split_space rest with
           | w :: ws => String c w :: ws
           | [] => [String c EmptyString]
           end
  end.

Fixpoint prefix_of (p s : string) : bool :=
  match p, s with
  | EmptyString, _ => true
  | String a p', String b s' => Ascii.eqb a b && prefix_of p' s'
  | String _ _, EmptyString => false
  end.

(** [s.includes(sub)] on strings *)
Fixpoint str_includes (s sub : string) : bool :=
  prefix_of sub s ||
  match s with
  | EmptyString => false
  | String _ rest => str_includes rest sub
  end.

(** [v?.includes(lit)]: [undefined] on a nullish receiver, substring
    search on a string, strict-equality membership on an array; any other
    receiver has no [includes] method and the call throws. *)
Definition opt_includes (v : value) (lit : string) : outcome value :=
  match v with
  | VUndefined | VNull => Ok VUndefined
  | VStr s => Ok (VBool (str_includes s lit))
  | VArr items => Ok (VBool (existsb (fun x => is_str x lit) items))
  | _ => Throw TypeError
  end.

(** [error.response] of a caught error *)
Definition exn_response (e : exn) : value :=
  match e with
  | AxiosError r => r
  | _ => VUndefined
  end.

(** Object literals *)
Definition obj (fields : list (string * value)) : value :=
  VObj (list_to_map fields).

End JS.
Export JS.

(** ** Typed records of the sources (TypeScript interfaces)

    Field types are the run-time ones: a field the interface declares as a
    string holds whatever value the request or the gateway supplied. *)
Module SubscriptionData.
Record t := mk
  { name : value; email : value; phone : value;
    bodyGoals : value; referralName : value }.
End SubscriptionData.

Module SubscriptionEmailData.
Record t := mk
  { name : value; email : value; phone : value;
    bodyGoals : value; referralName : value; paymentLink : value }.
End SubscriptionEmailData.

Module PaymentConfirmationEmailData.
Record t := mk
  { name : string; email : value; amount : string; paymentDate : string;
    subscriptionToken : value; reference : value;
    cardLast4 : value; cardType : value }.
End PaymentConfirmationEmailData.

Module PaymentFailedEmailData.
Record t := mk
  { name : string; email : value; amount : string;
    reference : value; reason : value }.
End PaymentFailedEmailData.

(** ** Effects: what a request does to the outside, and exceptions *)
Module Eff.

Inductive level := Log | Warn | Error.

(** The functions whose invocation the properties speak about. *)
Inductive func :=
| F_handlePaymentSuccess
| F_handlePaymentFailed
| F_verifyPaystackTransaction
| F_enableRecurringSubscription
| F_createPaystackSubscription
| F_initializePaystackSubscription
| F_createOrGetPaystackCustomer
| F_sendNewSubscriptionNotification
| F_sendSubscriptionInitiatedEmail
| F_sendPaymentConfirmationEmail
| F_sendPaymentReceivedNotification
| F_sendPaymentFailedEmail
| F_sendFormSubmissionEmail.

(** The HTML body of an email is one of six fixed templates filled from
    the data passed to the sending function; it is represented by the
    template and that data. *)
Inductive html :=
| NewSubscriptionHtml (d : SubscriptionEmailData.t)
| SubscriptionInitiatedHtml (d : SubscriptionEmailData.t)
| PaymentReceiptHtml (d : PaymentConfirmationEmailData.t)
| PaymentReceivedHtml (d : PaymentConfirmationEmailData.t)
| PaymentFailedHtml (d : PaymentFailedEmailData.t)
| FormSubmissionHtml (formType : string) (formData : list (string * string)).

(** Argument of [plunk.emails.send] *)
Record message := mkMessage
  { to : value; subject : string; body : html }.

Inductive effect :=
| Console (l : level) (text : string)   (* first argument of console.log/warn/error *)
| Call (f : func)                       (* entry into a function of the repository *)
| HttpGet (url : string)                (* axios.get *)
| HttpPost (url : string) (payload : value)  (* axios.post *)
| PlunkSend (m : message).              (* plunk.emails.send *)

Definition trace := list effect.

(** A computation: the effects it performed, in order, and how it ended. *)
Definition M (A : Type) : Type := (trace * outcome A)%type.

Definition ret {A} (a : A) : M A := ([], Ok a).
Definition throw {A} (e : exn) : M A := ([], Throw e).
Definition lift {A} (o : outcome A) : M A := ([], o).
Definition emit (e : effect) : M unit := ([e], Ok tt).

Definition bind {A B} (m : M A) (k : A -> M B) : M B :=
  match m with
  | (t, Ok a) => let '(t', r) := k a in (t ++ t', r)
  | (t, Throw e) => (t, Throw e)
  end.

(** [try { body } catch (error) { handler }] *)
Definition try_catch {A} (body : M A) (handler : exn -> M A) : M A :=
  match body with
  | (t, Throw e) => let '(t', r) := handler e in (t ++ t', r)
  | done => done
  end.

(** [Promise.all([p1, p2, ...])]: every element of the array literal has
    been started before [Promise.all] looks at any of them. *)
Fixpoint promise_all {A} (tasks : list (M A)) : M (list A) :=
  match tasks with
  | [] => ([], Ok [])
  | task :: rest =>
      let '(t1, r1) := task in
      let '(t2, r2) := promise_all rest in
      (t1 ++ t2,
       match r1, r2 with
       | Ok a, Ok l => Ok (a :: l)
       | Throw e, _ => Throw e
       | Ok _, Throw e => Throw e
       end)
  end.

(** [promise.catch(handler)] on a promise nobody awaits.  The effects of
    the promise are recorded where it is started; nothing in the sources
    observes when it settles. *)
Definition detached {A} (p : M A) (handler : exn -> M unit) : M unit :=
  try_catch (bind p (fun _ => ret tt)) handler.

Definition effects {A} (m : M A) : trace := fst m.
Definition result {A} (m : M A) : outcome A := snd m.

End Eff.
Export Eff.

(** stdpp's monad notation: [x ← m; k] and [m ;; k] *)
#[global] Instance M_ret : MRet M := @ret.
#[global] Instance M_bind : MBind M := fun A B k m => bind m k.

(** [v.p1.p2...] *)
Fixpoint path (v : value) (ps : list string) : outcome value :=
  match ps with
  | [] => Ok v
  | p :: ps' =>
      match get v p with
      | Ok x => path x ps'
      | Throw e => Throw e
      end
  end.

(** ** The outside world

    Everything the code reaches through a library or the platform: the
    process environment, Node's [crypto], [JSON.parse], the HTTP client,
    the mail provider's client, the clock and number parsing. *)
Record World := mkWorld
  { process_env : gmap string string;
    (** [crypto.createHmac('sha512', key).update(payload).digest('hex')] *)
    hmac_sha512_hex : string -> string -> string;
    (** [JSON.parse(text)]; throws [SyntaxError] on malformed text *)
    JSON_parse : string -> outcome value;
    (** [(await axios.get(url)).data]; rejects on transport errors and on
        non-2xx status *)
    axios_get : string -> outcome value;
    (** [(await axios.post(url, payload)).data] *)
    axios_post : string -> value -> outcome value;
    (** [await plunk.emails.send(message)] *)
    plunk_emails_send : message -> outcome unit;
    (** [new Date(v).toLocaleDateString('en-ZA', {...})] *)
    toLocaleDateString : value -> string;
    (** [new Date().toISOString()] *)
    now_toISOString : string;
    (** [`SUB_${Date.now()}_${Math.random().toString(36).substring(7)}`] *)
    fresh_reference : string;
    (** [parseFloat(s) * 100] *)
    parseFloat_times_100 : string -> value;
    (** [(s / 100).toFixed(2)] for a string [s], which JavaScript first
        converts to a number *)
    string_div_100_toFixed_2 : string -> string }.

(** [process.env.NAME || fallback] *)
Definition env_or (W : World) (name fallback : string) : string :=
  match process_env W !! name with
  | Some s => if String.eqb s "" then fallback else s
  | None => fallback
  end.

(** [process.env.NAME] as a value *)
Definition env_value (W : World) (name : string) : value :=
  match process_env W !! name with
  | Some s => VStr s
  | None => VUndefined
  end.

(** ** src/lib/paystack.ts *)

Module VerifyResult.
Record t := mk { success : bool; data : value; error : value }.
End VerifyResult.

Module CustomerResult.
Record t := mk { success : bool; customer_code : value; error : value }.
End CustomerResult.

Module InitializeResult.
Record t := mk
  { success : bool; authorizationUrl : value; reference : value; error : value }.
End InitializeResult.

Module EnableResult.
Record t := mk { success : bool; subscriptionCode : value; error : value }.
End EnableResult.

Module SubscriptionResult.
Record t := mk { success : bool; data : value; error : value }.
End SubscriptionResult.

(** The last two steps of [Number.prototype.toFixed(2)]: the digit string
    is padded with zeros to three places, and the point goes before the last
    two. *)
Definition pad_to_three (m : string) : string :=
  let k := String.length m in
  if (k <=? 2)%nat then string_of_list_ascii (repeat "0"%char (3 - k)) +:+ m else m.

Definition point_before_last_two (m : string) : string :=
  let k := String.length m in
  substring 0 (k - 2) m +:+ "." +:+ substring (k - 2) 2 m.

(** [Number.prototype.toFixed(2)] of [n / 100] for an integer [n]: the
    integer closest to [100 * (n / 100)] is [n] itself, and its digits are
    laid out as above after the sign.  (Exact for the doubles with
    |n| < 2^52, where dividing by 100 loses less than half a unit in the
    second decimal.) *)
Definition toFixed_2_of_hundredths (n : Z) : string :=
  let s := if n <? 0 then "-" else "" in
  let x := Z.abs n in
  let m := if x =? 0 then "0" else digits x in
  s +:+ point_before_last_two (pad_to_three m).

Definition hex_upper (n : nat) : ascii :=
  ascii_of_nat (if (n <? 10)%nat then 48 + n else 55 + n).

Definition uri_unreserved (c : ascii) : bool :=
  let n := nat_of_ascii c in
  ((48 <=? n) && (n <=? 57) || (65 <=? n) && (n <=? 90) || (97 <=? n) && (n <=? 122))%nat
  || existsb (Ascii.eqb c) (list_ascii_of_string "-_.!~*'()").

(** [encodeURIComponent(s)] on a UTF-8 byte string *)
Fixpoint encodeURIComponent (s : string) : string :=
  match s with
  | EmptyString => EmptyString
  | String c rest =>
      if uri_unreserved c then String c (encodeURIComponent rest)
      else let n := nat_of_ascii c in
           String "%" (String (hex_upper (n / 16)) (String (hex_upper (n mod 16))
                      (encodeURIComponent rest)))
  end.

(** [v.split(' ')]: only a string has the method *)
Definition split_method (v : value) : outcome (list string) :=
  match v with
  | VStr s => Ok (split_space s)
  | _ => Throw TypeError
  end.

Definition PAYSTACK_BASE_URL : string := "https://api.paystack.co".

Section Paystack.
Variable W : World.

Definition PAYSTACK_SECRET_KEY : string := env_or W "PAYSTACK_SECRET_KEY" "".

(** The two HTTP verbs; every call carries the header
    [Authorization: Bearer PAYSTACK_SECRET_KEY]. *)
Definition http_get (url : string) : M value := ([HttpGet url], axios_get W url).
Definition http_post (url : string) (payload : value) : M value :=
  ([HttpPost url payload], axios_post W url payload).

(** [error.response?.data?.message] *)
Definition error_message (e : exn) : value :=
  opt_get (opt_get (exn_response e) "data") "message".

Definition createOrGetPaystackCustomer (data : SubscriptionData.t) : M CustomerResult.t :=
  emit (Call F_createOrGetPaystackCustomer);;
  try_catch
    (parts ← lift (split_method (SubscriptionData.name data));
     let firstName := hd "" parts in
     let lastNameParts := tl parts in
     let lastName :=
       if (0 <? length lastNameParts)%nat then join " " lastNameParts else "" in
     let payload :=
       obj [("email", SubscriptionData.email data);
            ("first_name", VStr firstName);
            ("last_name", VStr lastName);
            ("phone", SubscriptionData.phone data);
            ("metadata",
             obj [("body_goals", or_else (SubscriptionData.bodyGoals data) (VStr ""));
                  ("referral_name", or_else (SubscriptionData.referralName data) (VStr ""));
                  ("created_at", VStr (now_toISOString W))])] in
     response_data ← http_post (PAYSTACK_BASE_URL +:+ "/customer") payload;
     status ← lift (get response_data "status");
     if truthy status then
       code ← lift (path response_data ["data"; "customer_code"]);
       mret (CustomerResult.mk true code VUndefined)
     else
       message ← lift (get response_data "message");
       mret (CustomerResult.mk false VUndefined
               (or_else message (VStr "Failed to create customer"))))
    (fun error =>
       (* Customer might already exist, try to fetch *)
       exists_already ← lift (opt_includes (error_message error) "already exists");
       let fallthrough : M CustomerResult.t :=
         emit (Console Error "Paystack customer creation error:");;
         mret (CustomerResult.mk false VUndefined
                 (or_else (error_message error) (VStr "Failed to create customer"))) in
       if truthy exists_already then
         fetched ←
           try_catch
             (fetch_data ←
                http_get (PAYSTACK_BASE_URL +:+ "/customer/" +:+
                          encodeURIComponent (to_string (SubscriptionData.email data)));
              fetch_status ← lift (get fetch_data "status");
              if truthy fetch_status then
                code ← lift (path fetch_data ["data"; "customer_code"]);
                mret (Some (CustomerResult.mk true code VUndefined))
              else mret None)
             (fun fetchError =>
                emit (Console Error "Error fetching existing customer:");;
                mret None);
         match fetched with
         | Some r => mret r
         | None => fallthrough
         end
       else fallthrough).

Definition initializePaystackSubscription (data : SubscriptionData.t) : M InitializeResult.t :=
  emit (Call F_initializePaystackSubscription);;
  try_catch
    (customerResult ← createOrGetPaystackCustomer data;
     if negb (CustomerResult.success customerResult)
        || negb (truthy (CustomerResult.customer_code customerResult))
     then
       mret (InitializeResult.mk false VUndefined VUndefined
               (or_else (CustomerResult.error customerResult)
                        (VStr "Failed to create customer")))
     else
       let amount :=
         parseFloat_times_100 W (env_or W "NEXT_PUBLIC_SUBSCRIPTION_AMOUNT" "399") in
       let callbackUrl :=
         env_or W "NEXT_PUBLIC_PAYSTACK_CALLBACK_URL"
                "http://localhost:3000/payment-success" in
       let reference := fresh_reference W in
       parts ← lift (split_method (SubscriptionData.name data));
       let firstName := hd "" parts in
       let lastNameParts := tl parts in
       let lastName :=
         if (0 <? length lastNameParts)%nat then join " " lastNameParts else "" in
       let planCode := env_value W "PAYSTACK_PLAN_CODE" in
       let field (display variable : string) (v : value) :=
         obj [("display_name", VStr display); ("variable_name", VStr variable);
              ("value", v)] in
       let custom_fields :=
         [field "Full Name" "full_name" (SubscriptionData.name data);
          field "Phone" "phone" (SubscriptionData.phone data)]
         ++ (if truthy (SubscriptionData.bodyGoals data)
             then [field "Body Goals" "body_goals" (SubscriptionData.bodyGoals data)]
             else [])
         ++ (if truthy (SubscriptionData.referralName data)
             then [field "Referred By" "referral_name" (SubscriptionData.referralName data)]
             else []) in
       let fields :=
         [("email", SubscriptionData.email data);
          ("customer", CustomerResult.customer_code customerResult);
          ("amount", amount);
          ("reference", VStr reference);
          ("callback_url", VStr callbackUrl);
          ("currency", VStr "ZAR");
          ("metadata",
           obj [("custom_fields", VArr custom_fields);
                ("first_name", VStr firstName);
                ("last_name", VStr lastName);
                ("phone", SubscriptionData.phone data);
                ("body_goals", or_else (SubscriptionData.bodyGoals data) (VStr ""));
                ("referral_name", or_else (SubscriptionData.referralName data) (VStr ""));
                ("subscription_type", VStr "recurring")]);
          ("channels", VArr [VStr "card"; VStr "bank"; VStr "ussd"; VStr "mobile_money"])] in
       let payload :=
         obj (if truthy planCode then fields ++ [("plan", planCode)] else fields) in
       response_data ← http_post (PAYSTACK_BASE_URL +:+ "/transaction/initialize") payload;
       status ← lift (get response_data "status");
       if truthy status then
         url ← lift (path response_data ["data"; "authorization_url"]);
         ref ← lift (path response_data ["data"; "reference"]);
         mret (InitializeResult.mk true url ref VUndefined)
       else
         message ← lift (get response_data "message");
         mret (InitializeResult.mk false VUndefined VUndefined
                 (or_else message (VStr "Failed to initialize payment"))))
    (fun error =>
       emit (Console Error "Paystack initialization error:");;
       mret (InitializeResult.mk false VUndefined VUndefined
               (or_else (error_message error) (VStr "Failed to initialize payment")))).

Definition verifyPaystackTransaction (reference : value) : M VerifyResult.t :=
  emit (Call F_verifyPaystackTransaction);;
  try_catch
    (response_data ←
       http_get (PAYSTACK_BASE_URL +:+ "/transaction/verify/" +:+ to_string reference);
     status ← lift (get response_data "status");
     confirmed ←
       (if truthy status then
          state ← lift (path response_data ["data"; "status"]);
          mret (is_str state "success")
        else mret false);
     if confirmed : bool then
       data ← lift (get response_data "data");
       mret (VerifyResult.mk true data VUndefined)
     else
       message ← lift (get response_data "message");
       mret (VerifyResult.mk false VUndefined
               (or_else message (VStr "Payment verification failed"))))
    (fun error =>
       emit (Console Error "Paystack verification error:");;
       mret (VerifyResult.mk false VUndefined
               (or_else (error_message error) (VStr "Failed to verify payment")))).

Definition verifyPaystackWebhook (payload signature : string) : bool :=
  let hash := hmac_sha512_hex W PAYSTACK_SECRET_KEY payload in
  String.eqb hash signature.

(** [(v / 100).toFixed(2)]: numbers as above; [null] and booleans convert
    to 0 and 1; [undefined] and objects to NaN; strings (and arrays, which
    convert through their string) are parsed by the platform. *)
Definition div_100_toFixed_2 (v : value) : string :=
  match v with
  | VNum n => toFixed_2_of_hundredths n
  | VNull => toFixed_2_of_hundredths 0
  | VBool b => toFixed_2_of_hundredths (if b then 1 else 0)
  | VUndefined | VObj _ => "NaN"
  | VStr s => string_div_100_toFixed_2 W s
  | VArr _ => string_div_100_toFixed_2 W (to_string v)
  end.

Definition formatPaystackAmount (amountInKobo : value) : string :=
  "R" +:+ div_100_toFixed_2 amountInKobo.

Definition createPaystackSubscription (customerCode planCode : value) : M SubscriptionResult.t :=
  emit (Call F_createPaystackSubscription);;
  try_catch
    (response_data ←
       http_post (PAYSTACK_BASE_URL +:+ "/subscription")
                 (obj [("customer", customerCode); ("plan", planCode)]);
     status ← lift (get response_data "status");
     if truthy status then
       data ← lift (get response_data "data");
       mret (SubscriptionResult.mk true data VUndefined)
     else
       message ← lift (get response_data "message");
       mret (SubscriptionResult.mk false VUndefined
               (or_else message (VStr "Failed to create subscription"))))
    (fun error =>
       emit (Console Error "Paystack subscription creation error:");;
       mret (SubscriptionResult.mk false VUndefined
               (or_else (error_message error) (VStr "Failed to create subscription")))).

Definition enableRecurringSubscription (authorizationCode email : value) : M EnableResult.t :=
  emit (Call F_enableRecurringSubscription);;
  try_catch
    (customer_data ←
       http_post (PAYSTACK_BASE_URL +:+ "/customer") (obj [("email", email)]);
     customerCode ← lift (path customer_data ["data"; "customer_code"]);
     let planCode := env_value W "PAYSTACK_PLAN_CODE" in
     let by_authorization := EnableResult.mk true authorizationCode VUndefined in
     if truthy planCode then
       subscriptionResult ← createPaystackSubscription customerCode planCode;
       if SubscriptionResult.success subscriptionResult then
         mret (EnableResult.mk true
                 (opt_get (SubscriptionResult.data subscriptionResult) "subscription_code")
                 VUndefined)
       else mret by_authorization
     else mret by_authorization)
    (fun error =>
       emit (Console Error "Enable recurring subscription error:");;
       mret (EnableResult.mk false VUndefined
               (or_else (error_message error)
                        (VStr "Failed to enable recurring subscription")))).

End Paystack.

(** ** src/lib/email.ts *)
Section Email.
Variable W : World.

Definition plunk_send (m : message) : M unit :=
  ([PlunkSend m], plunk_emails_send W m).

Definition sendNewSubscriptionNotification (data : SubscriptionEmailData.t) : M bool :=
  emit (Call F_sendNewSubscriptionNotification);;
  try_catch
    (let adminEmail := env_or W "ADMIN_EMAIL" "admin@shegymz.com" in
     plunk_send
       {| to := VStr adminEmail;
          subject := "New Subscription: " +:+ to_string (SubscriptionEmailData.name data);
          body := NewSubscriptionHtml data |};;
     emit (Console Log ("Admin notification sent for subscription: "
                        +:+ to_string (SubscriptionEmailData.email data)));;
     mret true)
    (fun error =>
       emit (Console Error "Failed to send admin notification:");;
       (* Don't throw - email failures shouldn't break the subscription flow *)
       mret false).

Definition sendSubscriptionInitiatedEmail (data : SubscriptionEmailData.t) : M bool :=
  emit (Call F_sendSubscriptionInitiatedEmail);;
  try_catch
    (plunk_send
       {| to := SubscriptionEmailData.email data;
          subject := "Welcome to SheGymz - Complete Your Payment";
          body := SubscriptionInitiatedHtml data |};;
     emit (Console Log ("Welcome email sent to: "
                        +:+ to_string (SubscriptionEmailData.email data)));;
     mret true)
    (fun error =>
       emit (Console Error "Failed to send welcome email:");;
       mret false).

Definition sendPaymentConfirmationEmail (data : PaymentConfirmationEmailData.t) : M bool :=
  emit (Call F_sendPaymentConfirmationEmail);;
  try_catch
    (plunk_send
       {| to := PaymentConfirmationEmailData.email data;
          subject := "Payment Receipt - SheGymz Membership";
          body := PaymentReceiptHtml data |};;
     emit (Console Log ("Payment receipt sent to: "
                        +:+ to_string (PaymentConfirmationEmailData.email data)));;
     mret true)
    (fun error =>
       emit (Console Error "Failed to send payment receipt:");;
       mret false).

Definition sendPaymentReceivedNotification (data : PaymentConfirmationEmailData.t) : M bool :=
  emit (Call F_sendPaymentReceivedNotification);;
  try_catch
    (let adminEmail := env_or W "ADMIN_EMAIL" "admin@shegymz.com" in
     plunk_send
       {| to := VStr adminEmail;
          subject := "Payment Received: " +:+ PaymentConfirmationEmailData.name data
                     +:+ " - " +:+ PaymentConfirmationEmailData.amount data;
          body := PaymentReceivedHtml data |};;
     emit (Console Log ("Admin payment notification sent: "
                        +:+ to_string (PaymentConfirmationEmailData.email data)));;
     mret true)
    (fun error =>
       emit (Console Error "Failed to send admin payment notification:");;
       mret false).

Definition sendPaymentFailedEmail (data : PaymentFailedEmailData.t) : M bool :=
  emit (Call F_sendPaymentFailedEmail);;
  try_catch
    (plunk_send
       {| to := PaymentFailedEmailData.email data;
          subject := "Payment Failed - SheGymz Membership";
          body := PaymentFailedHtml data |};;
     emit (Console Log ("Payment failed notification sent to: "
                        +:+ to_string (PaymentFailedEmailData.email data)));;
     mret true)
    (fun error =>
       emit (Console Error "Failed to send payment failed email:");;
       mret false).

Definition sendFormSubmissionEmail
    (formData : list (string * string)) (formType : string) : M bool :=
  emit (Call F_sendFormSubmissionEmail);;
  try_catch
    (let adminEmail := env_or W "ADMIN_EMAIL" "admin@shegymz.com" in
     plunk_send
       {| to := VStr adminEmail;
          subject := "New " +:+ formType +:+ " Submission";
          body := FormSubmissionHtml formType formData |};;
     emit (Console Log ("Form submission email sent: " +:+ formType));;
     mret true)
    (fun error =>
       emit (Console Error "Failed to send form submission email:");;
       mret false).

End Email.

(** ** HTTP plumbing of the two routes *)
Record Response := mkResponse { status : Z; json : value }.

(** [NextResponse.json(body, { status })]; the status defaults to 200. *)
Definition NextResponse_json (body : value) (status : Z) : Response :=
  mkResponse status body.

(** ** src/app/api/webhook/paystack/route.ts *)
Module Webhook.

(** What the handler reads from the request: [await request.text()],
    taken to succeed, and [request.headers.get('x-paystack-signature')]
    ([None] is [null]). *)
Record Request := mkRequest
  { text : string; x_paystack_signature : option string }.

Section Route.
Variable W : World.

Definition handlePaymentSuccess (event : value) : M unit :=
  emit (Call F_handlePaymentSuccess);;
  try_catch
    ((* Additional verification: Query Paystack API to confirm payment *)
     ref0 ← lift (path event ["data"; "reference"]);
     verification ← verifyPaystackTransaction W ref0;
     if negb (VerifyResult.success verification)
        || negb (is_str (opt_get (VerifyResult.data verification) "status") "success")
     then
       lift (path event ["data"; "reference"]);;
       emit (Console Warn "Payment verification failed:")
     else
       data ← lift (get event "data");
       customer ← lift (get data "customer");
       amount ← lift (get data "amount");
       reference ← lift (get data "reference");
       metadata ← lift (get data "metadata");
       paid_at ← lift (get data "paid_at");
       authorization ← lift (get data "authorization");
       emit (Console Log "=== WEBHOOK DEBUG ===");;
       email0 ← lift (get customer "email");
       emit (Console Log "Customer email:");;
       first0 ← lift (get customer "first_name");
       last0 ← lift (get customer "last_name");
       emit (Console Log "Customer name:");;
       emit (Console Log "Metadata:");;
       emit (Console Log "====================");;
       customerEmail ← lift (get customer "email");
       first_name ← lift (get customer "first_name");
       last_name ← lift (get customer "last_name");
       let customerName := trim (to_string first_name +:+ " " +:+ to_string last_name) in
       emit (Console Log ("Payment confirmed for " +:+ to_string customerEmail
                          +:+ " - " +:+ formatPaystackAmount W amount));;
       emit (Console Log ("Will send receipt email to: " +:+ to_string customerEmail));;
       (* Enable recurring subscription if authorization code is available *)
       (if truthy (opt_get authorization "authorization_code") then
          code ← lift (get authorization "authorization_code");
          subscriptionResult ← enableRecurringSubscription W code customerEmail;
          if EnableResult.success subscriptionResult then
            emit (Console Log ("Recurring subscription enabled for "
                               +:+ to_string customerEmail));;
            emit (Console Log ("Subscription code: " +:+
                    to_string (EnableResult.subscriptionCode subscriptionResult)))
          else
            emit (Console Warn ("Failed to enable recurring subscription: " +:+
                    to_string (EnableResult.error subscriptionResult)))
        else mret tt);;
       let emailData :=
         {| PaymentConfirmationEmailData.name := customerName;
            PaymentConfirmationEmailData.email := customerEmail;
            PaymentConfirmationEmailData.amount := formatPaystackAmount W amount;
            PaymentConfirmationEmailData.paymentDate := toLocaleDateString W paid_at;
            PaymentConfirmationEmailData.subscriptionToken :=
              or_else (opt_get authorization "authorization_code") reference;
            PaymentConfirmationEmailData.reference := reference;
            PaymentConfirmationEmailData.cardLast4 := opt_get authorization "last4";
            PaymentConfirmationEmailData.cardType := opt_get authorization "card_type" |} in
       (* Send payment confirmation emails asynchronously *)
       detached
         (promise_all [sendPaymentConfirmationEmail W emailData;
                       sendPaymentReceivedNotification W emailData])
         (fun error =>
            emit (Console Error "Failed to send payment confirmation emails:")))
    (fun error => emit (Console Error "Error handling payment success:")).

Definition handlePaymentFailed (event : value) : M unit :=
  emit (Call F_handlePaymentFailed);;
  try_catch
    (data ← lift (get event "data");
     customer ← lift (get data "customer");
     gateway_response ← lift (get data "gateway_response");
     reference ← lift (get data "reference");
     amount ← lift (get data "amount");
     customerEmail ← lift (get customer "email");
     first_name ← lift (get customer "first_name");
     last_name ← lift (get customer "last_name");
     let customerName := trim (to_string first_name +:+ " " +:+ to_string last_name) in
     emit (Console Log ("Payment failed for " +:+ to_string customerEmail
                        +:+ " - Reason: " +:+ to_string gateway_response));;
     (* Send payment failed notification to user *)
     let emailData :=
       {| PaymentFailedEmailData.name := customerName;
          PaymentFailedEmailData.email := customerEmail;
          PaymentFailedEmailData.amount := formatPaystackAmount W amount;
          PaymentFailedEmailData.reference := reference;
          PaymentFailedEmailData.reason :=
            or_else gateway_response (VStr "Payment could not be processed") |} in
     detached
       (sendPaymentFailedEmail W emailData)
       (fun error => emit (Console Error "Failed to send payment failed email:")))
    (fun error => emit (Console Error "Error handling payment failure:")).

(** The [switch (event.event)] of [POST] *)
Definition dispatch (event : value) : M unit :=
  kind ← lift (get event "event");
  if is_str kind "charge.success" then handlePaymentSuccess event
  else if is_str kind "charge.failed" then handlePaymentFailed event
  else if is_str kind "subscription.create" then
    lift (path event ["data"; "reference"]);;
    emit (Console Log "Subscription created:")
  else if is_str kind "subscription.disable" then
    lift (path event ["data"; "reference"]);;
    emit (Console Log "Subscription cancelled:")
  else emit (Console Log "Unhandled webhook event:").

(** The fields read for the [console.log] of the received event *)
Definition log_received (event : value) : M unit :=
  lift (get event "event");;
  lift (path event ["data"; "reference"]);;
  lift (path event ["data"; "status"]);;
  lift (path event ["data"; "amount"]);;
  lift (path event ["data"; "customer"; "email"]);;
  emit (Console Log "Paystack webhook received:").

Definition POST (request : Request) : M Response :=
  try_catch
    ((* Get the raw body as text for signature verification *)
     let body := text request in
     match x_paystack_signature request with
     | None | Some "" =>
         emit (Console Warn "Paystack webhook received without signature");;
         mret (NextResponse_json (obj [("error", VStr "No signature provided")]) 400)
     | Some signature =>
         (* CRITICAL: Verify webhook signature *)
         let isValidSignature := verifyPaystackWebhook W body signature in
         if negb isValidSignature then
           emit (Console Warn "Invalid Paystack webhook signature");;
           mret (NextResponse_json (obj [("error", VStr "Invalid signature")]) 400)
         else
           (* Parse the webhook payload *)
           event ← lift (JSON_parse W body);
           log_received event;;
           (* Handle different webhook events *)
           dispatch event;;
           (* Always respond 200 OK to acknowledge receipt *)
           mret (NextResponse_json (obj [("received", VBool true)]) 200)
     end)
    (fun error =>
       emit (Console Error "Paystack webhook error:");;
       (* Still respond 200 to prevent Paystack from retrying *)
       mret (NextResponse_json
               (obj [("received", VBool true); ("error", VStr "Processing error")]) 200)).

End Route.
End Webhook.

(** ** src/app/api/subscribe/route.ts *)
Module Subscribe.

(** What the handler reads from the request: the outcome of
    [await request.json()], which throws on a body that is not JSON. *)
Record Request := mkRequest { body_json : outcome value }.

Section Route.
Variable W : World.

Definition POST (request : Request) : M Response :=
  try_catch
    (body ← lift (body_json request);
     (* Validate required fields *)
     name ← lift (get body "name");
     email ← lift (get body "email");
     phone ← lift (get body "phone");
     bodyGoals ← lift (get body "bodyGoals");
     referralName ← lift (get body "referralName");
     if negb (truthy name) || negb (truthy email) || negb (truthy phone) then
       mret (NextResponse_json (obj [("error", VStr "Missing required fields")]) 400)
     else
       (* Initialize Paystack transaction *)
       paystackResult ←
         initializePaystackSubscription W
           (SubscriptionData.mk name email phone bodyGoals referralName);
       if negb (InitializeResult.success paystackResult) then
         mret (NextResponse_json
                 (obj [("error", or_else (InitializeResult.error paystackResult)
                                         (VStr "Failed to initialize payment"))]) 500)
       else
         (* Send email notifications with payment link (non-blocking) *)
         let emailData :=
           SubscriptionEmailData.mk name email phone bodyGoals referralName
             (InitializeResult.authorizationUrl paystackResult) in
         detached
           (promise_all [sendSubscriptionInitiatedEmail W emailData;
                         sendNewSubscriptionNotification W emailData])
           (fun error => emit (Console Error "Email notification error:"));;
         mret (NextResponse_json
                 (obj [("redirectUrl", InitializeResult.authorizationUrl paystackResult);
                       ("reference", InitializeResult.reference paystackResult)]) 200))
    (fun error =>
       emit (Console Error "Subscription error:");;
       mret (NextResponse_json
               (obj [("error", VStr "Failed to initiate subscription")]) 500)).

End Route.
End Subscribe.

(** ** A test double of the outside world

    Stands in for the gateway, the mail provider and the platform when the
    routes are run on concrete requests.  JSON texts are rendered from
    syntax trees, and the double's [JSON.parse] knows the texts of the sample
    payloads below; everything else is malformed to it. *)
Module Fake.

Inductive jtree :=
| JNull
| JBool (b : bool)
| JNum (n : Z)
| JStr (s : string)
| JArr (items : list jtree)
| JObj (members : list (string * jtree)).

Definition quote (s : string) : string :=
  String "034"%char (s +:+ String "034"%char "").

Fixpoint render (j : jtree) : string :=
  match j with
  | JNull => "null"
  | JBool true => "true"
  | JBool false => "false"
  | JNum n => num_to_string n
  | JStr s => quote s
  | JArr items => "[" +:+ join "," (List.map render items) +:+ "]"
  | JObj members =>
      "{" +:+ join "," (List.map (fun m => quote (fst m) +:+ ":" +:+ render (snd m)) members)
          +:+ "}"
  end.

Fixpoint denote (j : jtree) : value :=
  match j with
  | JNull => VNull
  | JBool b => VBool b
  | JNum n => VNum n
  | JStr s => VStr s
  | JArr items => VArr (List.map denote items)
  | JObj members => obj (List.map (fun m => (fst m, denote (snd m))) members)
  end.

Definition customer : jtree :=
  JObj [("id", JNum 7); ("first_name", JStr "Thandi"); ("last_name", JStr "Nkosi");
        ("email", JStr "thandi@example.com"); ("customer_code", JStr "CUS_1");
        ("phone", JNull)].

Definition authorization : jtree :=
  JObj [("authorization_code", JStr "AUTH_1"); ("last4", JStr "4081");
        ("card_type", JStr "visa")].

Definition charge (kind reference gateway_response : string) : jtree :=
  JObj [("event", JStr kind);
        ("data",
         JObj [("id", JNum 1); ("status", JStr "success"); ("reference", JStr reference);
               ("amount", JNum 39900); ("gateway_response", JStr gateway_response);
               ("paid_at", JStr "2025-01-15T10:00:00.000Z");
               ("metadata", JObj []); ("customer", customer);
               ("authorization", authorization)])].

Definition charge_success : jtree := charge "charge.success" "SUB_ok" "Successful".
Definition charge_success_unconfirmed : jtree :=
  charge "charge.success" "SUB_forged" "Successful".
Definition charge_failed : jtree := charge "charge.failed" "SUB_ok" "Insufficient Funds".
Definition charge_failed_no_reason : jtree := charge "charge.failed" "SUB_ok" "".
Definition no_data : jtree := JObj [("event", JStr "charge.success")].

Definition samples : list jtree :=
  [charge_success; charge_success_unconfirmed; charge_failed; charge_failed_no_reason;
   no_data; JNull].

Definition parse (text : string) : outcome value :=
  match List.find (fun j => String.eqb (render j) text) samples with
  | Some j => Ok (denote j)
  | None => Throw SyntaxError
  end.

Fixpoint hex_fixed (width : nat) (n : Z) : string :=
  match width with
  | O => ""
  | S w =>
      hex_fixed w (n / 16)
      +:+ String (ascii_of_nat (Z.to_nat (n mod 16) +
                                (if n mod 16 <? 10 then 48 else 87))) ""
  end.

Fixpoint replicate_string (times : nat) (s : string) : string :=
  match times with
  | O => ""
  | S t => s +:+ replicate_string t s
  end.

(** A keyed 16-bit checksum printed as 128 hexadecimal characters (a
    stand-in for SHA-512, chosen to be cheap to evaluate) *)
Definition hmac (key payload : string) : string :=
  replicate_string 32
    (hex_fixed 4
       (fold_left (fun acc c => (acc * 31 + Z.of_nat (nat_of_ascii c)) mod 65521)
                  (list_ascii_of_string (key +:+ ":" +:+ payload)) 7)).

Definition verify_ok : value :=
  obj [("status", VBool true); ("message", VStr "Verification successful");
       ("data", obj [("status", VStr "success"); ("reference", VStr "SUB_ok")])].

Definition verify_abandoned : value :=
  obj [("status", VBool true); ("message", VStr "Verification successful");
       ("data", obj [("status", VStr "abandoned"); ("reference", VStr "SUB_forged")])].

Definition gateway_get (url : string) : outcome value :=
  if String.eqb url "https://api.paystack.co/transaction/verify/SUB_ok" then Ok verify_ok
  else if String.eqb url "https://api.paystack.co/transaction/verify/SUB_forged"
  then Ok verify_abandoned
  else Throw (AxiosError VUndefined).

Definition gateway_post (url : string) (payload : value) : outcome value :=
  if String.eqb url "https://api.paystack.co/customer" then
    Ok (obj [("status", VBool true); ("data", obj [("customer_code", VStr "CUS_1")])])
  else if String.eqb url "https://api.paystack.co/transaction/initialize" then
    Ok (obj [("status", VBool true);
             ("data", obj [("authorization_url", VStr "https://checkout.paystack.com/abc");
                           ("access_code", VStr "abc");
                           ("reference", opt_get payload "reference")])])
  else Throw (AxiosError VUndefined).

Definition world (mail_works : bool) : World :=
  {| process_env := {[ "PAYSTACK_SECRET_KEY" := "sk_test_0123" ]};
     hmac_sha512_hex := hmac;
     JSON_parse := parse;
     axios_get := gateway_get;
     axios_post := gateway_post;
     plunk_emails_send := fun _ => if mail_works then Ok tt else Throw PlunkError;
     toLocaleDateString := fun _ => "15 January 2025";
     now_toISOString := "2025-01-15T10:00:01.000Z";
     fresh_reference := "SUB_1736935201000_k3x9qz";
     parseFloat_times_100 := fun _ => VNum 39900;
     string_div_100_toFixed_2 := fun _ => "NaN" |}.

(** A request carrying [j] as its body, signed as the gateway would *)
Definition signed (W : World) (j : jtree) : Webhook.Request :=
  Webhook.mkRequest (render j) (Some (hmac (PAYSTACK_SECRET_KEY W) (render j))).

Definition signed_text (W : World) (text : string) : Webhook.Request :=
  Webhook.mkRequest text (Some (hmac (PAYSTACK_SECRET_KEY W) text)).

(** The sample requests, as the live gateway and mail provider see them *)
Definition live : World := world true.
Definition success_request : Webhook.Request := signed live charge_success.

End Fake.

(** ** Vocabulary of the properties *)

(** The two acknowledgement bodies of the webhook route *)
Definition ack : value := obj [("received", VBool true)].
Definition ack_with_error : value :=
  obj [("received", VBool true); ("error", VStr "Processing error")].

Definition rejection (message : string) : Response :=
  mkResponse 400 (obj [("error", VStr message)]).

(** The digest the gateway is expected to have sent for a request *)
Definition expected_digest (W : World) (request : Webhook.Request) : string :=
  hmac_sha512_hex W (PAYSTACK_SECRET_KEY W) (Webhook.text request).

(** The header is present, non-empty, and equal to the expected digest. *)
Definition signature_passes (W : World) (request : Webhook.Request) : bool :=
  match Webhook.x_paystack_signature request with
  | Some s => negb (String.eqb s "") && verifyPaystackWebhook W (Webhook.text request) s
  | None => false
  end.

(** The payload parses and has the fields that [POST] reads before it
    dispatches. *)
Definition processable (W : World) (request : Webhook.Request) : bool :=
  match JSON_parse W (Webhook.text request) with
  | Ok event =>
      match path event ["data"; "customer"; "email"] with
      | Ok _ => true
      | Throw _ => false
      end
  | Throw _ => false
  end.

(** The response of the webhook route, as a function of the signature
    check and of the shape of the payload *)
Definition expected_response (W : World) (request : Webhook.Request) : Response :=
  if signature_passes W request then
    mkResponse 200 (if processable W request then ack else ack_with_error)
  else
    match Webhook.x_paystack_signature request with
    | Some (String _ _) => rejection "Invalid signature"
    | _ => rejection "No signature provided"
    end.

Definition verify_url (reference : value) : string :=
  PAYSTACK_BASE_URL +:+ "/transaction/verify/" +:+ to_string reference.

(** The gateway answers the verification query with a positive top-level
    status and the transaction state "success". *)
Definition gateway_confirms (W : World) (reference : value) : bool :=
  match axios_get W (verify_url reference) with
  | Ok response_data =>
      truthy (opt_get response_data "status")
      && is_str (opt_get (opt_get response_data "data") "status") "success"
  | Throw _ => false
  end.

Definition is_ok {A} (o : outcome A) : bool :=
  match o with
  | Ok _ => true
  | Throw _ => false
  end.

(** The same world with another mail provider *)
Definition with_mail (W : World) (send : message -> outcome unit) : World :=
  {| process_env := process_env W;
     hmac_sha512_hex := hmac_sha512_hex W;
     JSON_parse := JSON_parse W;
     axios_get := axios_get W;
     axios_post := axios_post W;
     plunk_emails_send := send;
     toLocaleDateString := toLocaleDateString W;
     now_toISOString := now_toISOString W;
     fresh_reference := fresh_reference W;
     parseFloat_times_100 := parseFloat_times_100 W;
     string_div_100_toFixed_2 := string_div_100_toFixed_2 W |}.

(** The same world with another [JSON.parse] *)
Definition with_JSON_parse (W : World) (parse : string -> outcome value) : World :=
  {| process_env := process_env W;
     hmac_sha512_hex := hmac_sha512_hex W;
     JSON_parse := parse;
     axios_get := axios_get W;
     axios_post := axios_post W;
     plunk_emails_send := plunk_emails_send W;
     toLocaleDateString := toLocaleDateString W;
     now_toISOString := now_toISOString W;
     fresh_reference := fresh_reference W;
     parseFloat_times_100 := parseFloat_times_100 W;
     string_div_100_toFixed_2 := string_div_100_toFixed_2 W |}.

Definition is_console (e : effect) : Prop :=
  match e with
  | Console _ _ => True
  | _ => False
  end.

Definition is_mail (e : effect) : Prop :=
  match e with
  | PlunkSend _ => True
  | _ => False
  end.


(** The two confirmation emails of a successful payment: entering their
    sending functions, or handing their message to the mail provider *)
Definition is_confirmation_email (e : effect) : Prop :=
  match e with
  | Call F_sendPaymentConfirmationEmail | Call F_sendPaymentReceivedNotification => True
  | PlunkSend m =>
      match body m with
      | PaymentReceiptHtml _ | PaymentReceivedHtml _ => True
      | _ => False
      end
  | _ => False
  end.

Definition is_handler (e : effect) : Prop :=
  match e with
  | Call F_handlePaymentSuccess | Call F_handlePaymentFailed => True
  | _ => False
  end.


Definition failure_message (d : PaymentFailedEmailData.t) : message :=
  {| to := PaymentFailedEmailData.email d;
     subject := "Payment Failed - SheGymz Membership";
     body := PaymentFailedHtml d |}.

(** The messages of the other sending functions *)
Definition new_subscription_message (W : World) (d : SubscriptionEmailData.t) : message :=
  {| to := VStr (env_or W "ADMIN_EMAIL" "admin@shegymz.com");
     subject := "New Subscription: " +:+ to_string (SubscriptionEmailData.name d);
     body := NewSubscriptionHtml d |}.

Definition subscription_initiated_message (d : SubscriptionEmailData.t) : message :=
  {| to := SubscriptionEmailData.email d;
     subject := "Welcome to SheGymz - Complete Your Payment";
     body := SubscriptionInitiatedHtml d |}.

Definition payment_receipt_message (d : PaymentConfirmationEmailData.t) : message :=
  {| to := PaymentConfirmationEmailData.email d;
     subject := "Payment Receipt - SheGymz Membership";
     body := PaymentReceiptHtml d |}.

Definition payment_received_message (W : World) (d : PaymentConfirmationEmailData.t) : message :=
  {| to := VStr (env_or W "ADMIN_EMAIL" "admin@shegymz.com");
     subject := "Payment Received: " +:+ PaymentConfirmationEmailData.name d
                +:+ " - " +:+ PaymentConfirmationEmailData.amount d;
     body := PaymentReceivedHtml d |}.

Definition form_submission_message
    (W : World) (formData : list (string * string)) (formType : string) : message :=
  {| to := VStr (env_or W "ADMIN_EMAIL" "admin@shegymz.com");
     subject := "New " +:+ formType +:+ " Submission";
     body := FormSubmissionHtml formType formData |}.

(** A sending function enters, hands its message to the provider, logs the
    outcome, and returns whether the provider accepted the message: [false]
    on a failed send, never a throw. *)
Definition swallows (W : World) {D} (send : D -> M bool) (f : func) (msg : D -> message)
  : Prop :=
  forall d, exists settled,
    send d = ([Call f; PlunkSend (msg d); settled],
              Ok (is_ok (plunk_emails_send W (msg d)))) /\
    is_console settled.

(** Every effect of a computation satisfies [P]. *)
Definition only (P : effect -> Prop) {A} (m : M A) : Prop := Forall P (effects m).

(** The amount as the words of the specification have it: the sign, the
    major units, a point, and the two digits of the minor units. *)
Definition digit (d : Z) : ascii := ascii_of_nat (48 + Z.to_nat d).

Definition two_decimal_currency (minor : Z) : string :=
  "R" +:+ (if minor <? 0 then "-" else "")
      +:+ digits (Z.abs minor / 100) +:+ "."
      +:+ String (digit (Z.abs minor / 10 mod 10)) (String (digit (Z.abs minor mod 10)) "").

(** ** Vocabulary of the further properties *)

Definition customer_url : string := PAYSTACK_BASE_URL +:+ "/customer".
Definition subscription_url : string := PAYSTACK_BASE_URL +:+ "/subscription".
Definition initialize_url : string := PAYSTACK_BASE_URL +:+ "/transaction/initialize".


(** The gateway answers the customer call of [enableRecurringSubscription]
    with a body that has a [data] member to read the customer code from. *)
Definition customer_known (W : World) (email : value) : bool :=
  match axios_post W customer_url (obj [("email", email)]) with
  | Ok d => negb (nullish d) && negb (nullish (opt_get d "data"))
  | Throw _ => false
  end.

(** The subscription code [enableRecurringSubscription] reports: the code
    of the plan subscription when a plan is configured and the gateway
    created it, the authorization code in every other case. *)
Definition expected_subscription_code
    (W : World) (authorizationCode customerCode : value) : value :=
  let planCode := env_value W "PAYSTACK_PLAN_CODE" in
  if truthy planCode then
    match axios_post W subscription_url (obj [("customer", customerCode); ("plan", planCode)]) with
    | Ok d =>
        if truthy (opt_get d "status")
        then opt_get (opt_get d "data") "subscription_code"
        else authorizationCode
    | Throw _ => authorizationCode
    end
  else authorizationCode.


(** Effects that change something outside: a gateway POST, the recurring
    subscription, or a mail *)
Definition is_outward (e : effect) : Prop :=
  match e with
  | HttpPost _ _ | PlunkSend _ => True
  | Call F_enableRecurringSubscription | Call F_createPaystackSubscription => True
  | Call F_sendPaymentConfirmationEmail | Call F_sendPaymentReceivedNotification => True
  | _ => False
  end.

Definition is_initialize_post (e : effect) : Prop :=
  match e with
  | HttpPost url _ => url = initialize_url
  | _ => False
  end.

(** The request body of the transaction initialization, for a name already
    split into its space-separated parts *)
Definition initialize_payload
    (W : World) (data : SubscriptionData.t) (customer_code : value) (parts : list string)
  : value :=
  let firstName := hd "" parts in
  let lastNameParts := tl parts in
  let lastName := if (0 <? length lastNameParts)%nat then join " " lastNameParts else "" in
  let planCode := env_value W "PAYSTACK_PLAN_CODE" in
  let field (display variable : string) (v : value) :=
    obj [("display_name", VStr display); ("variable_name", VStr variable); ("value", v)] in
  let custom_fields :=
    [field "Full Name" "full_name" (SubscriptionData.name data);
     field "Phone" "phone" (SubscriptionData.phone data)]
    ++ (if truthy (SubscriptionData.bodyGoals data)
        then [field "Body Goals" "body_goals" (SubscriptionData.bodyGoals data)]
        else [])
    ++ (if truthy (SubscriptionData.referralName data)
        then [field "Referred By" "referral_name" (SubscriptionData.referralName data)]
        else []) in
  let fields :=
    [("email", SubscriptionData.email data);
     ("customer", customer_code);
     ("amount",
      parseFloat_times_100 W (env_or W "NEXT_PUBLIC_SUBSCRIPTION_AMOUNT" "399"));
     ("reference", VStr (fresh_reference W));
     ("callback_url",
      VStr (env_or W "NEXT_PUBLIC_PAYSTACK_CALLBACK_URL"
                   "http://localhost:3000/payment-success"));
     ("currency", VStr "ZAR");
     ("metadata",
      obj [("custom_fields", VArr custom_fields);
           ("first_name", VStr firstName);
           ("last_name", VStr lastName);
           ("phone", SubscriptionData.phone data);
           ("body_goals", or_else (SubscriptionData.bodyGoals data) (VStr ""));
           ("referral_name", or_else (SubscriptionData.referralName data) (VStr ""));
           ("subscription_type", VStr "recurring")]);
     ("channels", VArr [VStr "card"; VStr "bank"; VStr "ussd"; VStr "mobile_money"])] in
  obj (if truthy planCode then fields ++ [("plan", planCode)] else fields).

(** The request body of the customer creation *)
Definition customer_payload (W : World) (data : SubscriptionData.t) (parts : list string)
  : value :=
  let firstName := hd "" parts in
  let lastNameParts := tl parts in
  let lastName := if (0 <? length lastNameParts)%nat then join " " lastNameParts else "" in
  obj [("email", SubscriptionData.email data);
       ("first_name", VStr firstName);
       ("last_name", VStr lastName);
       ("phone", SubscriptionData.phone data);
       ("metadata",
        obj [("body_goals", or_else (SubscriptionData.bodyGoals data) (VStr ""));
             ("referral_name", or_else (SubscriptionData.referralName data) (VStr ""));
             ("created_at", VStr (now_toISOString W))])].

(** The fields a subscription request is validated on, and the data the
    route builds from its body *)
Definition has_required_fields (body : value) : bool :=
  negb (nullish body)
  && truthy (opt_get body "name") && truthy (opt_get body "email")
  && truthy (opt_get body "phone").

Definition subscription_data (body : value) : SubscriptionData.t :=
  SubscriptionData.mk (opt_get body "name") (opt_get body "email") (opt_get body "phone")
                      (opt_get body "bodyGoals") (opt_get body "referralName").

Definition subscription_email_data (body paymentLink : value) : SubscriptionEmailData.t :=
  SubscriptionEmailData.mk (opt_get body "name") (opt_get body "email")
                           (opt_get body "phone") (opt_get body "bodyGoals")
                           (opt_get body "referralName") paymentLink.

(** Characters of a string *)
Fixpoint string_forall (P : ascii -> bool) (s : string) : bool :=
  match s with
  | EmptyString => true
  | String c rest => P c && string_forall P rest
  end.

Definition is_space_char (c : ascii) : bool := Ascii.eqb c " "%char.

(** A rejection message on which [.includes] cannot be called: neither
    nullish, nor a string, nor an array *)
Definition lacks_includes (v : value) : bool :=
  match v with
  | VNum _ | VBool _ | VObj _ => true
  | _ => false
  end.


Definition is_digit_char (c : ascii) : bool :=
  ((48 <=? nat_of_ascii c) && (nat_of_ascii c <=? 57))%nat.

(** The number a rendered amount spells, read digit by digit; every other
    character is skipped. *)
Fixpoint spelled (acc : Z) (s : string) : Z :=
  match s with
  | EmptyString => acc
  | String c rest =>
      spelled (if is_digit_char c then 10 * acc + Z.of_nat (nat_of_ascii c - 48) else acc) rest
  end.

Definition spelled_negative (s : string) : bool :=
  match s with
  | String _ (String c _) => Ascii.eqb c "-"%char
  | _ => false
  end.

(** The same world with another gateway and environment *)
Definition with_gateway
    (W : World) (env : gmap string string)
    (get : string -> outcome value) (post : string -> value -> outcome value) : World :=
  {| process_env := env;
     hmac_sha512_hex := hmac_sha512_hex W;
     JSON_parse := JSON_parse W;
     axios_get := get;
     axios_post := post;
     plunk_emails_send := plunk_emails_send W;
     toLocaleDateString := toLocaleDateString W;
     now_toISOString := now_toISOString W;
     fresh_reference := fresh_reference W;
     parseFloat_times_100 := parseFloat_times_100 W;
     string_div_100_toFixed_2 := string_div_100_toFixed_2 W |}.

(** Further gateways for the sample runs *)
Module Scenario.



(** The gateway refuses with a numeric [message]. *)
Definition numeric_message : World :=
  with_gateway Fake.live (process_env Fake.live) (axios_get Fake.live)
    (fun url payload =>
       Throw (AxiosError (obj [("data", obj [("message", VNum 409)])]))).

(** The customer call works, the initialization is declined. *)
Definition declined : World :=
  with_gateway Fake.live (process_env Fake.live) (axios_get Fake.live)
    (fun url payload =>
       if String.eqb url "https://api.paystack.co/transaction/initialize"
       then Ok (obj [("status", VBool false); ("message", VStr "Invalid key")])
       else axios_post Fake.live url payload).

(** A plan is configured, but the gateway cannot create the subscription. *)
Definition plan_unavailable : World :=
  with_gateway Fake.live
    (<["PAYSTACK_PLAN_CODE" := "PLN_1"]> (process_env Fake.live))
    (axios_get Fake.live) (axios_post Fake.live).

Definition subscriber : value :=
  obj [("name", VStr "Thandi Nkosi"); ("email", VStr "thandi@example.com");
       ("phone", VStr "0820000000")].

Definition subscriber_data : SubscriptionData.t := subscription_data subscriber.

Definition subscription_event : Fake.jtree :=
  Fake.charge "subscription.create" "SUB_ok" "Successful".


(** A world whose [JSON.parse] also knows the subscription event *)
Definition with_subscription_events : World :=
  with_JSON_parse Fake.live
    (fun text =>
       if String.eqb text (Fake.render subscription_event)
       then Ok (Fake.denote subscription_event)
       else Fake.parse text).

End Scenario.

(** * Properties *)

(** ** The monad *)

(** Goals are stated with [bind] and [ret]; the notation unfolds to them. *)
Ltac monad_norm := unfold mbind, M_bind, mret, M_ret in *.

Section Laws.
Context {A B : Type}.
Implicit Types (m : M A) (k : A -> M B).

Lemma effects_bind m k :
  effects (bind m k)
  = effects m ++ match result m with Ok a => effects (k a) | Throw _ => [] end.
Proof.
  destruct m as [t [a|e]]; unfold bind, effects, result; simpl.
  - destruct (k a); reflexivity.
  - now rewrite app_nil_r.
Qed.

Lemma result_bind m k :
  result (bind m k) = match result m with Ok a => result (k a) | Throw e => Throw e end.
Proof.
  destruct m as [t [a|e]]; unfold bind, effects, result; simpl.
  - destruct (k a); reflexivity.
  - reflexivity.
Qed.

Lemma effects_try_catch m (h : exn -> M A) :
  effects (try_catch m h)
  = effects m ++ match result m with Ok _ => [] | Throw e => effects (h e) end.
Proof.
  destruct m as [t [a|e]]; unfold try_catch, effects, result; simpl.
  - now rewrite app_nil_r.
  - destruct (h e); reflexivity.
Qed.

Lemma result_try_catch m (h : exn -> M A) :
  result (try_catch m h)
  = match result m with Ok a => Ok a | Throw e => result (h e) end.
Proof.
  destruct m as [t [a|e]]; unfold try_catch, effects, result; simpl.
  - reflexivity.
  - destruct (h e); reflexivity.
Qed.

Lemma only_bind P m k :
  only P m -> (forall a, result m = Ok a -> only P (k a)) -> only P (bind m k).
Proof.
  unfold only. intros Hm Hk. rewrite effects_bind. apply Forall_app. split; [exact Hm|].
  destruct (result m) eqn:E; [now apply Hk | constructor].
Qed.

Lemma only_try_catch P m (h : exn -> M A) :
  only P m -> (forall e, result m = Throw e -> only P (h e)) -> only P (try_catch m h).
Proof.
  unfold only. intros Hm Hh. rewrite effects_try_catch. apply Forall_app. split; [exact Hm|].
  destruct (result m) eqn:E; [constructor | now apply Hh].
Qed.

End Laws.

Lemma bind_run {A B} (m : M A) (k : A -> M B) t a :
  m = (t, Ok a) -> bind m k = (t ++ effects (k a), result (k a)).
Proof. intros ->. unfold bind. now destruct (k a). Qed.

Lemma bind_lift_ok {A B} (a : A) (k : A -> M B) : bind (lift (Ok a)) k = k a.
Proof. unfold bind, lift. now destruct (k a). Qed.

Lemma bind_emit {B} e (k : unit -> M B) :
  bind (emit e) k = (e :: effects (k tt), result (k tt)).
Proof. unfold bind, emit. now destruct (k tt). Qed.

Lemma only_lift P {A} (o : outcome A) : only P (lift o).
Proof. constructor. Qed.

Lemma only_ret P {A} (a : A) : only P (ret a).
Proof. constructor. Qed.

Lemma only_emit (P : effect -> Prop) e : P e -> only P (emit e).
Proof. intros H. repeat constructor. exact H. Qed.

Lemma only_detached P {A} (p : M A) h :
  only P p -> (forall e, only P (h e)) -> only P (detached p h).
Proof.
  intros Hp Hh. unfold detached. apply only_try_catch; [|auto].
  apply only_bind; [exact Hp|]. intros. apply only_ret.
Qed.

Lemma only_promise_all P {A} (tasks : list (M A)) :
  Forall (only P) tasks -> only P (promise_all tasks).
Proof.
  induction 1 as [|task rest Ht _ IH]; simpl; [constructor|].
  destruct task as [t1 r1]. destruct (promise_all rest) as [t2 r2].
  unfold only, effects in *. simpl in *. apply Forall_app. now split.
Qed.

Lemma only_http_get W (P : effect -> Prop) url : P (HttpGet url) -> only P (http_get W url).
Proof. intros H. repeat constructor. exact H. Qed.

Lemma only_http_post W (P : effect -> Prop) url payload :
  P (HttpPost url payload) -> only P (http_post W url payload).
Proof. intros H. repeat constructor. exact H. Qed.

Lemma only_plunk_send W (P : effect -> Prop) m : P (PlunkSend m) -> only P (plunk_send W m).
Proof. intros H. repeat constructor. exact H. Qed.

(** Structural rules of [only], applied until an effect or a call of
    another function of the sources is reached. *)
Ltac only_step :=
  first
    [ apply only_ret
    | apply only_lift
    | apply only_emit
    | apply only_http_get
    | apply only_http_post
    | apply only_plunk_send
    | apply only_bind; [|intros ? _]
    | apply only_try_catch; [|intros ? _]
    | apply only_detached; [|intros ?]
    | apply only_promise_all; repeat apply Forall_cons; try apply Forall_nil
    | match goal with
      | |- only _ (if ?b then _ else _) => destruct b
      | |- only _ (match ?o with Some _ => _ | None => _ end) => destruct o
      end ].

Ltac only_tac := monad_norm; repeat only_step.

(** If an element satisfying [P] occurs in [l1 ++ l2] and nothing in [l1]
    satisfies [P], everything of [l1] comes before it. *)
Lemma split_after_prefix {X} (P : X -> Prop) (l1 l2 pre post : list X) x :
  l1 ++ l2 = pre ++ x :: post ->
  Forall (fun y => ~ P y) l1 -> P x ->
  exists pre', pre = l1 ++ pre' /\ l2 = pre' ++ x :: post.
Proof.
  revert pre. induction l1 as [|a l1 IH]; intros pre Heq Hall Hx.
  - exists pre. auto.
  - inversion Hall as [|? ? Ha Hall']; subst.
    destruct pre as [|b pre]; simpl in Heq; inversion Heq; subst.
    + contradiction.
    + destruct (IH pre H1 Hall' Hx) as (pre' & -> & ->). exists pre'. auto.
Qed.

Lemma get_present v p : nullish v = false -> get v p = Ok (opt_get v p).
Proof. destruct v; simpl; intros; try discriminate; reflexivity. Qed.

Lemma get_ok_inv v p x : get v p = Ok x -> nullish v = false /\ x = opt_get v p.
Proof. destruct v; simpl; intros H; inversion H; auto. Qed.

(** ** The webhook route, step by step *)
Arguments path : simpl never.

Section WebhookFacts.
Variable W : World.
Import Webhook.

Lemma handlePaymentSuccess_result event :
  result (handlePaymentSuccess W event) = Ok tt.
Proof.
  unfold handlePaymentSuccess. monad_norm.
  rewrite result_bind. simpl. rewrite result_try_catch.
  destruct (result _) as [[]|e]; reflexivity.
Qed.

Lemma handlePaymentFailed_result event :
  result (handlePaymentFailed W event) = Ok tt.
Proof.
  unfold handlePaymentFailed. monad_norm.
  rewrite result_bind. simpl. rewrite result_try_catch.
  destruct (result _) as [[]|e]; reflexivity.
Qed.

(** What the logging of a received event needs from its shape *)
Lemma path_customer_email_inv event e :
  path event ["data"; "customer"; "email"] = Ok e ->
  exists data customer,
    get event "data" = Ok data /\ nullish data = false /\
    get data "customer" = Ok customer /\ nullish customer = false /\
    nullish event = false.
Proof.
  unfold path. destruct (get event "data") as [data|] eqn:Hd; [|discriminate].
  destruct (get data "customer") as [customer|] eqn:Hc; [|discriminate].
  destruct (get customer "email") as [x|] eqn:He; [|discriminate].
  intros _. exists data, customer.
  pose proof (get_ok_inv _ _ _ Hd) as [Ne _].
  pose proof (get_ok_inv _ _ _ Hc) as [Nd _].
  pose proof (get_ok_inv _ _ _ He) as [Nc _].
  auto.
Qed.

Lemma log_received_ok event e :
  path event ["data"; "customer"; "email"] = Ok e ->
  log_received event = ([Console Log "Paystack webhook received:"], Ok tt).
Proof.
  intros H. pose proof H as H'.
  apply path_customer_email_inv in H' as (data & customer & Hd & Nd & Hc & Nc & Ne).
  unfold log_received. rewrite H. unfold path. rewrite Hd.
  rewrite (get_present event "event" Ne), !(get_present data _ Nd). reflexivity.
Qed.

Lemma log_received_throw event x :
  path event ["data"; "customer"; "email"] = Throw x ->
  exists x', log_received event = ([], Throw x').
Proof.
  unfold log_received. intros H. rewrite H.
  destruct (get event "event"); [|eexists; reflexivity].
  destruct (path event ["data"; "reference"]); [|eexists; reflexivity].
  destruct (path event ["data"; "status"]); [|eexists; reflexivity].
  destruct (path event ["data"; "amount"]); eexists; reflexivity.
Qed.

Lemma dispatch_result event e :
  path event ["data"; "customer"; "email"] = Ok e ->
  result (dispatch W event) = Ok tt.
Proof.
  intros H. apply path_customer_email_inv in H as (data & customer & Hd & Nd & Hc & Nc & Ne).
  unfold dispatch. monad_norm. rewrite (get_present event "event" Ne). rewrite result_bind. simpl.
  repeat match goal with
         | |- context [if ?b then _ else _] => destruct b
         end;
    unfold path; rewrite ?handlePaymentSuccess_result, ?handlePaymentFailed_result, ?Hd,
      ?(get_present data _ Nd); reflexivity.
Qed.

(** A request whose signature does not pass gets a 400 and a warning,
    nothing else. *)
Lemma POST_rejects request :
  signature_passes W request = false ->
  POST W request
  = match x_paystack_signature request with
    | None | Some "" =>
        ([Console Warn "Paystack webhook received without signature"],
         Ok (rejection "No signature provided"))
    | Some _ =>
        ([Console Warn "Invalid Paystack webhook signature"],
         Ok (rejection "Invalid signature"))
    end.
Proof.
  unfold signature_passes, POST.
  destruct (x_paystack_signature request) as [[|c s]|]; try reflexivity.
  simpl. intros ->. reflexivity.
Qed.

(** A request whose signature passes is acknowledged with 200. *)
Lemma POST_accepts request :
  signature_passes W request = true ->
  POST W request
  = match JSON_parse W (text request) with
    | Ok event =>
        match path event ["data"; "customer"; "email"] with
        | Ok _ =>
            (Console Log "Paystack webhook received:" :: effects (dispatch W event),
             Ok (mkResponse 200 ack))
        | Throw _ =>
            ([Console Error "Paystack webhook error:"], Ok (mkResponse 200 ack_with_error))
        end
    | Throw _ =>
        ([Console Error "Paystack webhook error:"], Ok (mkResponse 200 ack_with_error))
    end.
Proof.
  unfold signature_passes, POST.
  destruct (x_paystack_signature request) as [[|c s]|]; try discriminate.
  simpl. intros ->. simpl.
  destruct (JSON_parse W (text request)) as [event|x]; [|reflexivity].
  destruct (path event ["data"; "customer"; "email"]) as [e|x] eqn:Hp.
  - monad_norm. cbn [lift bind]. rewrite (log_received_ok _ _ Hp).
    pose proof (dispatch_result _ _ Hp) as Hr.
    destruct (dispatch W event) as [t r]. unfold result in Hr. simpl in Hr. subst r.
    unfold effects. simpl. rewrite app_nil_r. reflexivity.
  - destruct (log_received_throw _ _ Hp) as [x' Hl].
    monad_norm. cbn [lift bind]. rewrite Hl. reflexivity.
Qed.

Lemma POST_result request :
  result (POST W request) = Ok (expected_response W request).
Proof.
  unfold expected_response. destruct (signature_passes W request) eqn:Hs.
  - rewrite (POST_accepts request Hs). unfold processable.
    destruct (JSON_parse W (text request)) as [event|x];
      [destruct (path event ["data"; "customer"; "email"])|]; reflexivity.
  - rewrite (POST_rejects request Hs).
    destruct (x_paystack_signature request) as [[|c s]|]; reflexivity.
Qed.

End WebhookFacts.

Lemma signature_fails_iff W request :
  signature_passes W request = false <->
  (Webhook.x_paystack_signature request = None \/
   Webhook.x_paystack_signature request = Some "" \/
   exists s, Webhook.x_paystack_signature request = Some s /\ s <> expected_digest W request).
Proof.
  unfold signature_passes, verifyPaystackWebhook, expected_digest.
  destruct (Webhook.x_paystack_signature request) as [s|]; [|intuition].
  destruct (String.eqb_spec s "") as [->|Hs]; simpl.
  - intuition.
  - destruct (String.eqb_spec (hmac_sha512_hex W (PAYSTACK_SECRET_KEY W) (Webhook.text request)) s)
      as [E|E]; split; intros H; try discriminate; auto.
    + destruct H as [H|[H|(s' & H & Hne)]]; try discriminate.
      * inversion H. contradiction.
      * inversion H. subst s'. congruence.
    + right. right. exists s. split; congruence.
Qed.

Lemma ack_with_error_is_not_ack : ack_with_error <> ack.
Proof.
  intros H. apply (f_equal (fun v => opt_get v "error")) in H.
  vm_compute in H. discriminate.
Qed.

(** C1: a webhook request whose signature header is missing, or differs
    from the digest expected for its raw body, is answered with status 400;
    neither handlePaymentSuccess nor handlePaymentFailed is entered and no
    email send is started (the only effect is a console warning). *)
Theorem webhook_bad_signature_rejected W request :
  (Webhook.x_paystack_signature request = None \/
   exists s, Webhook.x_paystack_signature request = Some s /\
             s <> expected_digest W request) ->
  exists response,
    result (Webhook.POST W request) = Ok response /\
    status response = 400 /\
    ~ In (Call F_handlePaymentSuccess) (effects (Webhook.POST W request)) /\
    ~ In (Call F_handlePaymentFailed) (effects (Webhook.POST W request)) /\
    (forall m, ~ In (PlunkSend m) (effects (Webhook.POST W request))) /\
    only is_console (Webhook.POST W request).
Proof.
  intros H.
  assert (Hf : signature_passes W request = false).
  { apply signature_fails_iff. destruct H as [H|H]; auto. }
  rewrite (POST_rejects W request Hf).
  destruct (Webhook.x_paystack_signature request) as [[|c s]|];
    (eexists; split; [reflexivity|]; split; [reflexivity|]);
    unfold only; simpl; repeat split; try (intros [?|[]]; discriminate);
    try (intros m [?|[]]; discriminate); repeat constructor.
Qed.

Lemma webhook_bad_signature_rejected_witness :
  exists response,
    result (Webhook.POST (Fake.world true) (Webhook.mkRequest "not json" (Some "00ff")))
    = Ok response /\
    status response = 400 /\
    ~ In (Call F_handlePaymentSuccess)
         (effects (Webhook.POST (Fake.world true) (Webhook.mkRequest "not json" (Some "00ff")))) /\
    ~ In (Call F_handlePaymentFailed)
         (effects (Webhook.POST (Fake.world true) (Webhook.mkRequest "not json" (Some "00ff")))) /\
    (forall m, ~ In (PlunkSend m)
         (effects (Webhook.POST (Fake.world true) (Webhook.mkRequest "not json" (Some "00ff"))))) /\
    only is_console (Webhook.POST (Fake.world true) (Webhook.mkRequest "not json" (Some "00ff"))).
Proof.
  apply (webhook_bad_signature_rejected (Fake.world true)
           (Webhook.mkRequest "not json" (Some "00ff"))).
  right. exists "00ff". split; [reflexivity|].
  apply String.eqb_neq. vm_compute. reflexivity.
Defined.

(** C3, as the code has it: once the signature passes, the route answers
    200 and the body carries received:true; the body is exactly
    {received:true} when the payload parses and has the fields read before
    dispatch, and {received:true, error:'Processing error'} otherwise (so
    for malformed JSON).  A request whose signature does not pass gets 400,
    and nothing else does. *)
Theorem webhook_acknowledges_once_signature_passes W request :
  exists response,
    result (Webhook.POST W request) = Ok response /\
    (signature_passes W request = true ->
       status response = 200 /\
       opt_get (json response) "received" = VBool true /\
       json response = (if processable W request then ack else ack_with_error)) /\
    (signature_passes W request = false -> status response = 400) /\
    (status response <> 200 -> signature_passes W request = false).
Proof.
  exists (expected_response W request). split; [apply POST_result|].
  unfold expected_response.
  destruct (signature_passes W request).
  - split; [|split]; [| discriminate | intros H; now contradiction H].
    intros _. now destruct (processable W request).
  - split; [|split]; [discriminate | | reflexivity].
    intros _. destruct (Webhook.x_paystack_signature request) as [[|c s]|]; reflexivity.
Qed.

Lemma webhook_acknowledges_once_signature_passes_witness :
  exists response,
    result (Webhook.POST (Fake.world true) (Fake.signed (Fake.world true) Fake.charge_failed))
    = Ok response /\
    status response = 200 /\ json response = ack.
Proof.
  destruct (webhook_acknowledges_once_signature_passes (Fake.world true)
              (Fake.signed (Fake.world true) Fake.charge_failed))
    as (response & Hr & Hpass & _).
  exists response. split; [exact Hr|].
  destruct Hpass as (Hst & _ & Hbody); [vm_compute; reflexivity|].
  split; [exact Hst|]. rewrite Hbody. vm_compute. reflexivity.
Defined.

(** C3 as stated fails on malformed JSON: the signature passes, the status
    is 200, but the body is not {received:true}. *)
Lemma webhook_malformed_body_counterexample :
  signature_passes (Fake.world true) (Fake.signed_text (Fake.world true) "not json") = true /\
  exists response,
    result (Webhook.POST (Fake.world true) (Fake.signed_text (Fake.world true) "not json"))
    = Ok response /\
    status response = 200 /\
    json response <> obj [("received", VBool true)].
Proof.
  split; [vm_compute; reflexivity|].
  eexists. split; [vm_compute; reflexivity|]. split; [reflexivity|].
  apply ack_with_error_is_not_ack.
Qed.






(** ** Sending never throws *)
Section Sending.
Variable W : World.

Ltac swallows_tac m :=
  intros d; unfold plunk_send; monad_norm; change (mkMessage _ _ _) with (m d);
  destruct (plunk_emails_send W (m d)) as [[]|x];
  cbn; eexists; (split; [reflexivity | exact I]).

Lemma sendNewSubscriptionNotification_swallows :
  swallows W (sendNewSubscriptionNotification W) F_sendNewSubscriptionNotification
           (new_subscription_message W).
Proof. unfold sendNewSubscriptionNotification. swallows_tac (new_subscription_message W). Qed.

Lemma sendSubscriptionInitiatedEmail_swallows :
  swallows W (sendSubscriptionInitiatedEmail W) F_sendSubscriptionInitiatedEmail
           subscription_initiated_message.
Proof. unfold sendSubscriptionInitiatedEmail. swallows_tac subscription_initiated_message. Qed.

Lemma sendPaymentConfirmationEmail_swallows :
  swallows W (sendPaymentConfirmationEmail W) F_sendPaymentConfirmationEmail
           payment_receipt_message.
Proof. unfold sendPaymentConfirmationEmail. swallows_tac payment_receipt_message. Qed.

Lemma sendPaymentReceivedNotification_swallows :
  swallows W (sendPaymentReceivedNotification W) F_sendPaymentReceivedNotification
           (payment_received_message W).
Proof. unfold sendPaymentReceivedNotification. swallows_tac (payment_received_message W). Qed.

Lemma sendPaymentFailedEmail_swallows :
  swallows W (sendPaymentFailedEmail W) F_sendPaymentFailedEmail failure_message.
Proof. unfold sendPaymentFailedEmail. swallows_tac failure_message. Qed.

Lemma sendFormSubmissionEmail_swallows formType :
  swallows W (fun formData => sendFormSubmissionEmail W formData formType)
           F_sendFormSubmissionEmail
           (fun formData => form_submission_message W formData formType).
Proof.
  unfold sendFormSubmissionEmail.
  swallows_tac (fun formData => form_submission_message W formData formType).
Qed.

End Sending.

(** ** Re-verification with the gateway *)
Section Reverification.
Variable W : World.
Import Webhook.

Lemma get_nullish v p : nullish v = true -> get v p = Throw TypeError.
Proof. destruct v; simpl; intros; try discriminate; reflexivity. Qed.

Lemma opt_get_nullish v p : nullish v = true -> opt_get v p = VUndefined.
Proof. intros H. unfold opt_get. now rewrite (get_nullish _ _ H). Qed.

(** [verifyPaystackTransaction] asks the gateway exactly once, never
    throws, and reports success exactly when the gateway confirms. *)
Lemma verifyPaystackTransaction_run reference :
  exists tail r,
    verifyPaystackTransaction W reference
    = (Call F_verifyPaystackTransaction :: HttpGet (verify_url reference) :: tail, Ok r) /\
    Forall is_console tail /\
    VerifyResult.success r = gateway_confirms W reference /\
    (VerifyResult.success r = true ->
     is_str (opt_get (VerifyResult.data r) "status") "success" = true).
Proof.
  unfold verifyPaystackTransaction, gateway_confirms, http_get.
  fold (verify_url reference). monad_norm.
  destruct (axios_get W (verify_url reference)) as [d|x]; cbn [bind try_catch emit app].
  2:{ do 2 eexists. split; [reflexivity|]. repeat split; try discriminate.
      repeat constructor. }
  destruct (nullish d) eqn:Nd.
  { rewrite (get_nullish d "status" Nd), (opt_get_nullish d "status" Nd).
    cbn. do 2 eexists. split; [reflexivity|]. repeat split; try discriminate.
    repeat constructor. }
  rewrite (get_present d "status" Nd). cbn [lift bind app].
  destruct (truthy (opt_get d "status")); cbn [andb].
  2:{ rewrite (get_present d "message" Nd). cbn.
      do 2 eexists. split; [reflexivity|]. repeat split; try discriminate. constructor. }
  unfold path. rewrite (get_present d "data" Nd).
  destruct (nullish (opt_get d "data")) eqn:Ndd.
  { rewrite (get_nullish _ "status" Ndd), (opt_get_nullish _ "status" Ndd).
    cbn. do 2 eexists. split; [reflexivity|]. repeat split; try discriminate.
    repeat constructor. }
  rewrite (get_present _ "status" Ndd). cbn [lift bind app ret].
  destruct (is_str (opt_get (opt_get d "data") "status") "success") eqn:Hst.
  - cbn. do 2 eexists. split; [reflexivity|]. repeat split; auto.
  - rewrite (get_present d "message" Nd). cbn.
    do 2 eexists. split; [reflexivity|]. repeat split; try discriminate. constructor.
Qed.

Lemma handlePaymentSuccess_effects event :
  match path event ["data"; "reference"] with
  | Ok reference =>
      exists tail rest,
        effects (handlePaymentSuccess W event)
        = Call F_handlePaymentSuccess :: Call F_verifyPaystackTransaction
            :: HttpGet (verify_url reference) :: tail ++ rest /\
        Forall is_console tail /\
        (gateway_confirms W reference = false ->
         rest = [Console Warn "Payment verification failed:"])
  | Throw _ =>
      effects (handlePaymentSuccess W event)
      = [Call F_handlePaymentSuccess; Console Error "Error handling payment success:"]
  end.
Proof.
  unfold handlePaymentSuccess. monad_norm.
  destruct (path event ["data"; "reference"]) as [reference|x] eqn:Hp.
  2:{ reflexivity. }
  destruct (verifyPaystackTransaction_run reference) as (tail & r & Hv & Ht & Hs & Hd).
  rewrite bind_emit, bind_lift_ok.
  match goal with
  | |- context [bind (verifyPaystackTransaction W reference) ?k] => set (K := k)
  end.
  rewrite (bind_run _ K _ _ Hv).
  cbn [effects fst]. rewrite effects_try_catch. cbn [effects result fst snd].
  exists tail. eexists. split; [|split; [exact Ht|]].
  - cbn [app]. rewrite <- app_assoc. reflexivity.
  - intros Hg. rewrite Hg in Hs. subst K. cbn beta. rewrite Hs. cbn [negb orb].
    rewrite bind_lift_ok. reflexivity.
Qed.

End Reverification.

(** ** Who can send a confirmation email *)
Section Confirmation.
Variable W : World.
Import Webhook.

Lemma handlePaymentFailed_no_confirmation event :
  only (fun e => ~ is_confirmation_email e) (handlePaymentFailed W event).
Proof.
  unfold handlePaymentFailed. only_tac; simpl; tauto.
Qed.

(** Within [handlePaymentSuccess], a confirmation email comes after the
    verification query, and only when the gateway confirmed. *)
Lemma handlePaymentSuccess_gated event pre e post :
  effects (handlePaymentSuccess W event) = pre ++ e :: post ->
  is_confirmation_email e ->
  exists reference,
    path event ["data"; "reference"] = Ok reference /\
    In (Call F_verifyPaystackTransaction) pre /\
    In (HttpGet (verify_url reference)) pre /\
    gateway_confirms W reference = true.
Proof.
  intros Heq He. pose proof (handlePaymentSuccess_effects W event) as Hshape.
  destruct (path event ["data"; "reference"]) as [reference|x].
  - destruct Hshape as (tail & rest & Hfx & Htail & Hrest).
    exists reference. split; [reflexivity|].
    rewrite Hfx in Heq.
    change (Call F_handlePaymentSuccess :: Call F_verifyPaystackTransaction
              :: HttpGet (verify_url reference) :: tail ++ rest)
      with (([Call F_handlePaymentSuccess; Call F_verifyPaystackTransaction;
              HttpGet (verify_url reference)] ++ tail) ++ rest) in Heq.
    destruct (split_after_prefix is_confirmation_email _ _ _ _ _ Heq) as (pre' & -> & Hr).
    + apply Forall_app. split.
      * repeat constructor; simpl; tauto.
      * eapply Forall_impl; [exact Htail|]. intros [] Hc; simpl in *; tauto.
    + exact He.
    + split; [simpl; auto|]. split; [simpl; auto|].
      destruct (gateway_confirms W reference) eqn:Hg; [reflexivity|].
      rewrite (Hrest eq_refl) in Hr.
      destruct pre' as [|? [|? ?]]; inversion Hr; subst. simpl in He. contradiction.
  - rewrite Hshape in Heq.
    destruct pre as [|? [|? [|? ?]]]; inversion Heq; subst; simpl in He; contradiction.
Qed.

Lemma dispatch_cases event :
  dispatch W event = handlePaymentSuccess W event \/
  only (fun e => ~ is_confirmation_email e) (dispatch W event).
Proof.
  unfold dispatch. monad_norm.
  destruct (get event "event") as [kind|x]; [|right; constructor].
  rewrite bind_lift_ok.
  destruct (is_str kind "charge.success"); [left; reflexivity|right].
  destruct (is_str kind "charge.failed"); [apply handlePaymentFailed_no_confirmation|].
  repeat only_step; simpl; tauto.
Qed.

End Confirmation.

(** C2: a confirmation email (entering sendPaymentConfirmationEmail or
    sendPaymentReceivedNotification, or handing one of their messages to the
    mail provider) happens only after handlePaymentSuccess has queried the
    gateway's verification endpoint for the event's reference, and only if
    the gateway answered with a positive top-level status and the
    transaction state "success"; when that re-verification fails, no
    confirmation email is sent.  This holds for the handler on every event
    and for the route on every request. *)
Theorem payment_success_is_reverified W :
  (forall event pre e post,
     effects (Webhook.handlePaymentSuccess W event) = pre ++ e :: post ->
     is_confirmation_email e ->
     exists reference,
       path event ["data"; "reference"] = Ok reference /\
       In (Call F_verifyPaystackTransaction) pre /\
       In (HttpGet (verify_url reference)) pre /\
       gateway_confirms W reference = true) /\
  (forall event reference,
     path event ["data"; "reference"] = Ok reference ->
     gateway_confirms W reference = false ->
     only (fun e => ~ is_confirmation_email e) (Webhook.handlePaymentSuccess W event)) /\
  (forall request pre e post,
     effects (Webhook.POST W request) = pre ++ e :: post ->
     is_confirmation_email e ->
     exists event reference,
       JSON_parse W (Webhook.text request) = Ok event /\
       path event ["data"; "reference"] = Ok reference /\
       In (Call F_verifyPaystackTransaction) pre /\
       In (HttpGet (verify_url reference)) pre /\
       gateway_confirms W reference = true).
Proof.
  split; [|split].
  - intros event pre e post. apply handlePaymentSuccess_gated.
  - intros event reference Hp Hg. unfold only. apply Forall_forall. intros e Hin He.
    apply list_elem_of_In, In_split in Hin as (pre & post & Heq).
    destruct (handlePaymentSuccess_gated W event pre e post Heq He) as (r & Hr & _ & _ & Hc).
    congruence.
  - intros request pre e post Heq He.
    destruct (signature_passes W request) eqn:Hs.
    + rewrite (POST_accepts W request Hs) in Heq.
      destruct (JSON_parse W (Webhook.text request)) as [event|x].
      * destruct (path event ["data"; "customer"; "email"]); cbn [effects fst] in Heq.
        -- destruct pre as [|c pre]; inversion Heq; subst; [simpl in He; contradiction|].
           destruct (dispatch_cases W event) as [Hd|Hd].
           ++ rewrite Hd in H1.
              destruct (handlePaymentSuccess_gated W event pre e post H1 He)
                as (reference & ? & ? & ? & ?).
              exists event, reference. repeat split; auto; right; assumption.
           ++ unfold only in Hd. rewrite H1 in Hd.
              apply Forall_app in Hd as [_ Hd]. inversion Hd. contradiction.
        -- destruct pre as [|? [|? ?]]; inversion Heq; subst; simpl in He; contradiction.
      * cbn [effects fst] in Heq.
        destruct pre as [|? [|? ?]]; inversion Heq; subst; simpl in He; contradiction.
    + rewrite (POST_rejects W request Hs) in Heq.
      destruct (Webhook.x_paystack_signature request) as [[|c s]|]; cbn [effects fst] in Heq;
        destruct pre as [|? [|? ?]]; inversion Heq; subst; simpl in He; contradiction.
Qed.

Lemma payment_success_is_reverified_witness :
  exists event reference,
    JSON_parse Fake.live (Webhook.text Fake.success_request) = Ok event /\
    path event ["data"; "reference"] = Ok reference /\
    In (Call F_verifyPaystackTransaction)
       (firstn 16 (effects (Webhook.POST Fake.live Fake.success_request))) /\
    In (HttpGet (verify_url reference))
       (firstn 16 (effects (Webhook.POST Fake.live Fake.success_request))) /\
    gateway_confirms Fake.live reference = true.
Proof.
  apply (proj2 (proj2 (payment_success_is_reverified Fake.live)) Fake.success_request
           (firstn 16 (effects (Webhook.POST Fake.live Fake.success_request)))
           (nth 16 (effects (Webhook.POST Fake.live Fake.success_request)) (Console Log ""))
           (skipn 17 (effects (Webhook.POST Fake.live Fake.success_request)))).
  - vm_compute. reflexivity.
  - vm_compute. exact I.
Defined.

(** ** The failure path *)
Section Failure.
Variable W : World.
Import Webhook.



End Failure.



(** ** The subscription route *)
Section SubscribeFacts.
Variable W : World.
Import Subscribe.

Lemma POST_missing request body :
  body_json request = Ok body ->
  nullish body = false ->
  truthy (opt_get body "name") && truthy (opt_get body "email")
    && truthy (opt_get body "phone") = false ->
  POST W request = ([], Ok (rejection "Missing required fields")).
Proof.
  intros Hb Nb Hmiss. unfold POST. monad_norm.
  rewrite Hb, bind_lift_ok, !(get_present body _ Nb), !bind_lift_ok.
  rewrite <- !negb_andb, Hmiss. reflexivity.
Qed.

Lemma POST_unreadable request :
  (body_json request = Ok VNull \/ body_json request = Ok VUndefined \/
   exists x, body_json request = Throw x) ->
  POST W request
  = ([Console Error "Subscription error:"],
     Ok (mkResponse 500 (obj [("error", VStr "Failed to initiate subscription")]))).
Proof.
  unfold POST. monad_norm. intros [-> | [-> | [x ->]]]; reflexivity.
Qed.

(** The answer does not depend on the mail provider. *)
Lemma POST_result_any_mail send send' request :
  result (POST (with_mail W send) request) = result (POST (with_mail W send') request).
Proof.
  unfold POST. monad_norm. rewrite !result_try_catch.
  destruct (body_json request) as [body|x]; [|reflexivity].
  rewrite !bind_lift_ok.
  destruct (get body "name") as [name|x]; [|reflexivity]. rewrite !bind_lift_ok.
  destruct (get body "email") as [email|x]; [|reflexivity]. rewrite !bind_lift_ok.
  destruct (get body "phone") as [phone|x]; [|reflexivity]. rewrite !bind_lift_ok.
  destruct (get body "bodyGoals") as [bodyGoals|x]; [|reflexivity]. rewrite !bind_lift_ok.
  destruct (get body "referralName") as [referralName|x]; [|reflexivity].
  rewrite !bind_lift_ok.
  destruct (negb (truthy name) || negb (truthy email) || negb (truthy phone));
    [reflexivity|].
  rewrite !result_bind.
  change (initializePaystackSubscription (with_mail W send))
    with (initializePaystackSubscription W).
  change (initializePaystackSubscription (with_mail W send'))
    with (initializePaystackSubscription W).
  destruct (result (initializePaystackSubscription W _)) as [r|x]; [|reflexivity].
  destruct (negb (InitializeResult.success r)); [reflexivity|].
  rewrite !result_bind. unfold detached. rewrite !result_try_catch, !result_bind.
  destruct (result (promise_all _)), (result (promise_all _)); reflexivity.
Qed.

End SubscribeFacts.

(** C8: each notification function hands its message to the mail provider
    and returns whether the provider accepted it: when the send fails the
    failure is caught and the function returns false, it never throws; and
    the response of POST /api/webhook/paystack (status and body) is the same
    whatever the mail provider does, in particular the same as when every
    send succeeds.  The same holds for POST /api/subscribe. *)
Theorem email_failures_are_swallowed W :
  swallows W (sendNewSubscriptionNotification W) F_sendNewSubscriptionNotification
           (new_subscription_message W) /\
  swallows W (sendSubscriptionInitiatedEmail W) F_sendSubscriptionInitiatedEmail
           subscription_initiated_message /\
  swallows W (sendPaymentConfirmationEmail W) F_sendPaymentConfirmationEmail
           payment_receipt_message /\
  swallows W (sendPaymentReceivedNotification W) F_sendPaymentReceivedNotification
           (payment_received_message W) /\
  swallows W (sendPaymentFailedEmail W) F_sendPaymentFailedEmail failure_message /\
  (forall formType,
     swallows W (fun formData => sendFormSubmissionEmail W formData formType)
              F_sendFormSubmissionEmail
              (fun formData => form_submission_message W formData formType)) /\
  (forall send request,
     result (Webhook.POST (with_mail W send) request)
     = result (Webhook.POST (with_mail W (fun _ => Ok tt)) request)) /\
  (forall send request,
     result (Subscribe.POST (with_mail W send) request)
     = result (Subscribe.POST (with_mail W (fun _ => Ok tt)) request)).
Proof.
  repeat split.
  - apply sendNewSubscriptionNotification_swallows.
  - apply sendSubscriptionInitiatedEmail_swallows.
  - apply sendPaymentConfirmationEmail_swallows.
  - apply sendPaymentReceivedNotification_swallows.
  - apply sendPaymentFailedEmail_swallows.
  - apply sendFormSubmissionEmail_swallows.
  - intros send request. rewrite !POST_result. reflexivity.
  - intros send request. apply POST_result_any_mail.
Qed.




(** C10: a request to POST /api/subscribe whose body has name, email or
    phone present with the empty string (or any other falsy value) is
    answered with 400 {error:'Missing required fields'} before anything is
    called, exactly as the same request with that field removed. *)
Theorem subscribe_empty_field_is_missing W request (props : gmap string value) field v :
  Subscribe.body_json request = Ok (VObj props) ->
  field = "name" \/ field = "email" \/ field = "phone" ->
  props !! field = Some v ->
  truthy v = false ->
  result (Subscribe.POST W request) = Ok (rejection "Missing required fields") /\
  effects (Subscribe.POST W request) = [] /\
  Subscribe.POST W (Subscribe.mkRequest (Ok (VObj (delete field props))))
  = Subscribe.POST W request.
Proof.
  intros Hb Hf Hv Hfalsy.
  assert (H1 : Subscribe.POST W request = ([], Ok (rejection "Missing required fields"))).
  { apply (POST_missing W request (VObj props) Hb eq_refl).
    unfold opt_get, get. destruct Hf as [-> | [-> | ->]]; rewrite Hv; cbn;
      rewrite Hfalsy, ?andb_false_r; reflexivity. }
  rewrite H1. repeat split.
  apply (POST_missing W (Subscribe.mkRequest (Ok (VObj (delete field props))))
           (VObj (delete field props)) eq_refl eq_refl).
  unfold opt_get, get. destruct Hf as [-> | [-> | ->]]; rewrite lookup_delete_eq; cbn;
    rewrite ?andb_false_r; reflexivity.
Qed.

Lemma subscribe_empty_field_is_missing_witness :
  result (Subscribe.POST Fake.live
            (Subscribe.mkRequest
               (Ok (VObj (<["phone" := VStr ""]> {["name" := VStr "Thandi Nkosi";
                                                   "email" := VStr "thandi@example.com"]})))))
  = Ok (rejection "Missing required fields") /\
  effects (Subscribe.POST Fake.live
            (Subscribe.mkRequest
               (Ok (VObj (<["phone" := VStr ""]> {["name" := VStr "Thandi Nkosi";
                                                   "email" := VStr "thandi@example.com"]})))))
  = [] /\
  Subscribe.POST Fake.live
    (Subscribe.mkRequest
       (Ok (VObj (delete "phone"
                    (<["phone" := VStr ""]> {["name" := VStr "Thandi Nkosi";
                                              "email" := VStr "thandi@example.com"]})))))
  = Subscribe.POST Fake.live
      (Subscribe.mkRequest
         (Ok (VObj (<["phone" := VStr ""]> {["name" := VStr "Thandi Nkosi";
                                             "email" := VStr "thandi@example.com"]})))).
Proof.
  apply (subscribe_empty_field_is_missing Fake.live _ _ "phone" (VStr "")).
  - reflexivity.
  - right. right. reflexivity.
  - vm_compute. reflexivity.
  - reflexivity.
Defined.

(** ** Amounts *)
Section Amounts.

Lemma append_cons x (a b : string) : String x a +:+ b = String x (a +:+ b).
Proof. reflexivity. Qed.

Lemma append_nil (b : string) : "" +:+ b = b.
Proof. reflexivity. Qed.

Lemma append_assoc' (a b c : string) : (a +:+ b) +:+ c = a +:+ (b +:+ c).
Proof.
  induction a as [|x a IH]; [reflexivity|]. now rewrite !append_cons, IH.
Qed.

Lemma length_append' (a b : string) :
  String.length (a +:+ b) = (String.length a + String.length b)%nat.
Proof.
  induction a as [|x a IH]; [reflexivity|]. rewrite append_cons. simpl. now rewrite IH.
Qed.

Lemma substring_whole (b : string) : substring 0 (String.length b) b = b.
Proof. induction b as [|x b IH]; simpl; [reflexivity | now rewrite IH]. Qed.

Lemma substring_prefix (a b : string) : substring 0 (String.length a) (a +:+ b) = a.
Proof.
  induction a as [|x a IH].
  - rewrite append_nil. now destruct b.
  - rewrite append_cons. simpl. now rewrite IH.
Qed.

Lemma substring_suffix (a b : string) :
  substring (String.length a) (String.length b) (a +:+ b) = b.
Proof.
  induction a as [|x a IH]; [apply substring_whole|]. rewrite append_cons. exact IH.
Qed.

Lemma digits_fuel_acc fuel : forall n acc,
  digits_fuel fuel n acc = digits_fuel fuel n "" +:+ acc.
Proof.
  induction fuel as [|fuel IH]; intros n acc; simpl; [reflexivity|].
  destruct (n <? 10); [reflexivity|].
  rewrite IH. rewrite (IH _ (String _ "")). now rewrite append_assoc'.
Qed.

Lemma digits_fuel_enough f1 : forall f2 n acc,
  0 <= n < 10 ^ (Z.of_nat f1 + 1) -> n < 10 ^ (Z.of_nat f2 + 1) ->
  digits_fuel f1 n acc = digits_fuel f2 n acc.
Proof.
  induction f1 as [|f1 IH]; intros f2 n acc H1 H2.
  - change (10 ^ (Z.of_nat 0 + 1)) with 10 in H1.
    destruct f2; simpl; [reflexivity|].
    destruct (Z.ltb_spec n 10); [reflexivity | lia].
  - simpl. destruct (Z.ltb_spec n 10) as [Hlt|Hge].
    + destruct f2; simpl; [reflexivity|].
      destruct (Z.ltb_spec n 10); [reflexivity | lia].
    + destruct f2 as [|f2].
      * change (10 ^ (Z.of_nat 0 + 1)) with 10 in H2. lia.
      * simpl. destruct (Z.ltb_spec n 10); [lia|].
        apply IH.
        -- split; [apply Z.div_pos; lia|].
           apply Z.div_lt_upper_bound; [lia|].
           replace (Z.of_nat (S f1) + 1) with (Z.succ (Z.of_nat f1 + 1)) in H1 by lia.
           rewrite Z.pow_succ_r in H1 by lia. lia.
        -- apply Z.div_lt_upper_bound; [lia|].
           replace (Z.of_nat (S f2) + 1) with (Z.succ (Z.of_nat f2 + 1)) in H2 by lia.
           rewrite Z.pow_succ_r in H2 by lia. lia.
Qed.

(** The bit length is enough fuel. *)
Lemma log2_fuel n : 0 <= n -> n < 10 ^ (Z.of_nat (Z.to_nat (Z.log2 n)) + 1).
Proof.
  intros Hn. rewrite Z2Nat.id by apply Z.log2_nonneg.
  destruct (Z.eq_dec n 0) as [->|Hz]; [reflexivity|].
  destruct (Z.log2_spec n) as [_ Hup]; [lia|].
  eapply Z.lt_le_trans; [exact Hup|].
  replace (Z.succ (Z.log2 n)) with (Z.log2 n + 1) by lia.
  apply Z.pow_le_mono_l. lia.
Qed.

Lemma digits_small n : 0 <= n < 10 -> digits n = String (digit n) "".
Proof.
  intros H. unfold digits, digit.
  replace (digits_fuel (Z.to_nat (Z.log2 n)) n "") with (digits_fuel 0 n "").
  - simpl. now rewrite Z.mod_small.
  - apply digits_fuel_enough; [change (10 ^ (Z.of_nat 0 + 1)) with 10; lia|].
    apply log2_fuel. lia.
Qed.

Lemma digits_step n :
  10 <= n -> digits n = digits (n / 10) +:+ String (digit (n mod 10)) "".
Proof.
  intros H. unfold digits.
  rewrite (digits_fuel_enough _ (S (Z.to_nat (Z.log2 (n / 10)))) n "").
  - simpl. destruct (Z.ltb_spec n 10); [lia|]. apply digits_fuel_acc.
  - split; [lia | apply log2_fuel; lia].
  - pose proof (log2_fuel (n / 10)) as Hq.
    replace (Z.of_nat (S (Z.to_nat (Z.log2 (n / 10)))) + 1)
      with (Z.succ (Z.of_nat (Z.to_nat (Z.log2 (n / 10))) + 1)) by lia.
    rewrite Z.pow_succ_r by lia.
    assert (0 <= n / 10) by (apply Z.div_pos; lia).
    specialize (Hq ltac:(assumption)).
    pose proof (Z.mul_div_le n 10 ltac:(lia)).
    pose proof (Z.mod_pos_bound n 10 ltac:(lia)).
    pose proof (Z.div_mod n 10 ltac:(lia)). lia.
Qed.

Lemma digits_nonempty n : (1 <= String.length (digits n))%nat.
Proof.
  unfold digits. generalize (Z.to_nat (Z.log2 n)). intros fuel.
  rewrite digits_fuel_acc, length_append'.
  enough (forall f m acc, (String.length acc < String.length (digits_fuel f m acc))%nat) as E.
  { specialize (E fuel n ""). simpl in *. lia. }
  induction f as [|f IH]; intros m acc; simpl; [lia|].
  destruct (m <? 10); simpl; [lia|].
  eapply Nat.lt_trans; [|apply IH]. simpl. lia.
Qed.

Lemma point_before_last_two_app (major minor : string) :
  String.length minor = 2%nat ->
  point_before_last_two (major +:+ minor) = major +:+ "." +:+ minor.
Proof.
  intros H. unfold point_before_last_two. rewrite length_append', H.
  replace (String.length major + 2 - 2)%nat with (String.length major) by lia.
  rewrite substring_prefix. rewrite <- H, substring_suffix. reflexivity.
Qed.

Lemma pad_to_three_long (m : string) :
  (3 <= String.length m)%nat -> pad_to_three m = m.
Proof.
  intros H. unfold pad_to_three. destruct (Nat.leb_spec (String.length m) 2); [lia|reflexivity].
Qed.

Lemma point_before_last_two_digits x :
  0 <= x ->
  point_before_last_two (pad_to_three (if x =? 0 then "0" else digits x))
  = digits (x / 100) +:+ "." +:+ String (digit (x / 10 mod 10)) (String (digit (x mod 10)) "").
Proof.
  intros Hx.
  replace (if x =? 0 then "0" else digits x) with (digits x)
    by (destruct (Z.eqb_spec x 0) as [->|]; reflexivity).
  destruct (Z_lt_dec x 10) as [H10|H10];
    [|destruct (Z_lt_dec x 100) as [H100|H100]].
  - rewrite digits_small by lia.
    rewrite (Z.div_small x 100), (Z.div_small x 10), (Z.mod_small x 10) by lia.
    reflexivity.
  - assert (Hq : 0 <= x / 10 < 10).
    { split; [apply Z.div_pos; lia | apply Z.div_lt_upper_bound; lia]. }
    rewrite digits_step, (digits_small (x / 10)) by lia.
    rewrite (Z.div_small x 100), (Z.mod_small (x / 10) 10) by lia.
    reflexivity.
  - assert (Hq : 10 <= x / 10).
    { apply Z.div_le_lower_bound; lia. }
    rewrite digits_step, (digits_step (x / 10)) by lia.
    rewrite Z.div_div by lia. change (10 * 10) with 100.
    rewrite append_assoc', append_cons, append_nil.
    pose proof (digits_nonempty (x / 100)) as Hne.
    rewrite pad_to_three_long by (rewrite length_append'; simpl; lia).
    now rewrite point_before_last_two_app.
Qed.

End Amounts.

(** C6: formatPaystackAmount renders an integer amount of minor units (of
    magnitude below 2^52, where the division by 100 is exact to the second
    decimal) as "R", the sign, the major units (the amount divided by 100),
    a point and exactly two digits of minor units;
    formatPaystackAmount(3990000) is "R39900.00". *)
Theorem formatPaystackAmount_two_decimals W n :
  - 2 ^ 52 < n < 2 ^ 52 ->
  formatPaystackAmount W (VNum n) = two_decimal_currency n /\
  formatPaystackAmount W (VNum 3990000) = "R39900.00".
Proof.
  intros _. split; [|reflexivity].
  unfold formatPaystackAmount, div_100_toFixed_2, two_decimal_currency,
    toFixed_2_of_hundredths.
  now rewrite point_before_last_two_digits by apply Z.abs_nonneg.
Qed.

Lemma formatPaystackAmount_two_decimals_witness :
  formatPaystackAmount Fake.live (VNum 3990000) = two_decimal_currency 3990000 /\
  formatPaystackAmount Fake.live (VNum 3990000) = "R39900.00".
Proof.
  apply (formatPaystackAmount_two_decimals Fake.live 3990000). split; [lia | reflexivity].
Defined.

(** ** The routes at work on the sample requests *)

Example unconfirmed_success_sends_nothing :
  effects (Webhook.POST Fake.live (Fake.signed Fake.live Fake.charge_success_unconfirmed))
  = [Console Log "Paystack webhook received:";
     Call F_handlePaymentSuccess;
     Call F_verifyPaystackTransaction;
     HttpGet "https://api.paystack.co/transaction/verify/SUB_forged";
     Console Warn "Payment verification failed:"].
Proof. vm_compute. reflexivity. Qed.

Example confirmed_success_sends_both_emails :
  List.filter (fun e => match e with Console _ _ => false | _ => true end)
    (effects (Webhook.POST Fake.live Fake.success_request))
  = [Call F_handlePaymentSuccess;
     Call F_verifyPaystackTransaction;
     HttpGet "https://api.paystack.co/transaction/verify/SUB_ok";
     Call F_enableRecurringSubscription;
     HttpPost "https://api.paystack.co/customer" (obj [("email", VStr "thandi@example.com")]);
     Call F_sendPaymentConfirmationEmail;
     PlunkSend (payment_receipt_message
                  {| PaymentConfirmationEmailData.name := "Thandi Nkosi";
                     PaymentConfirmationEmailData.email := VStr "thandi@example.com";
                     PaymentConfirmationEmailData.amount := "R399.00";
                     PaymentConfirmationEmailData.paymentDate := "15 January 2025";
                     PaymentConfirmationEmailData.subscriptionToken := VStr "AUTH_1";
                     PaymentConfirmationEmailData.reference := VStr "SUB_ok";
                     PaymentConfirmationEmailData.cardLast4 := VStr "4081";
                     PaymentConfirmationEmailData.cardType := VStr "visa" |});
     Call F_sendPaymentReceivedNotification;
     PlunkSend (payment_received_message Fake.live
                  {| PaymentConfirmationEmailData.name := "Thandi Nkosi";
                     PaymentConfirmationEmailData.email := VStr "thandi@example.com";
                     PaymentConfirmationEmailData.amount := "R399.00";
                     PaymentConfirmationEmailData.paymentDate := "15 January 2025";
                     PaymentConfirmationEmailData.subscriptionToken := VStr "AUTH_1";
                     PaymentConfirmationEmailData.reference := VStr "SUB_ok";
                     PaymentConfirmationEmailData.cardLast4 := VStr "4081";
                     PaymentConfirmationEmailData.cardType := VStr "visa" |})].
Proof. vm_compute. reflexivity. Qed.

Example failing_mail_provider_changes_no_response :
  result (Webhook.POST (Fake.world false) Fake.success_request)
  = Ok (mkResponse 200 ack).
Proof. vm_compute. reflexivity. Qed.

Example payload_without_data_is_acknowledged_with_error :
  Webhook.POST Fake.live (Fake.signed Fake.live Fake.no_data)
  = ([Console Error "Paystack webhook error:"], Ok (mkResponse 200 ack_with_error)).
Proof. vm_compute. reflexivity. Qed.

Example amounts :
  map (formatPaystackAmount Fake.live) [VNum 0; VNum 5; VNum 99; VNum 100; VNum 39900; VNull]
  = ["R0.00"; "R0.05"; "R0.99"; "R1.00"; "R399.00"; "R0.00"].
Proof. vm_compute. reflexivity. Qed.


Example complete_subscription_reaches_gateway_and_mail :
  List.filter (fun e => match e with Call _ => true | _ => false end)
    (effects (Subscribe.POST Fake.live
                (Subscribe.mkRequest
                   (Ok (obj [("name", VStr "Thandi Nkosi");
                             ("email", VStr "thandi@example.com");
                             ("phone", VStr "0820000000")])))))
  = [Call F_initializePaystackSubscription;
     Call F_createOrGetPaystackCustomer;
     Call F_sendSubscriptionInitiatedEmail;
     Call F_sendNewSubscriptionNotification].
Proof. vm_compute. reflexivity. Qed.


(** * Further properties of the gateway client and of the routes *)

Lemma truthy_or_else_text a (s : string) :
  s <> "" -> truthy (or_else a (VStr s)) = true.
Proof.
  intros Hs. unfold or_else. destruct (truthy a) eqn:Ha; [exact Ha|].
  simpl. now destruct s.
Qed.

(** ** The gateway client *)
Section Client.
Variable W : World.

(** X1: neither payment handler of the webhook route ever throws, whatever
    the event and whatever the gateway and the mail provider do. *)
Theorem payment_handlers_never_throw event :
  result (Webhook.handlePaymentSuccess W event) = Ok tt /\
  result (Webhook.handlePaymentFailed W event) = Ok tt.
Proof.
  split; [apply handlePaymentSuccess_result | apply handlePaymentFailed_result].
Qed.


Lemma createPaystackSubscription_run customerCode planCode :
  exists r tail,
    createPaystackSubscription W customerCode planCode
    = (Call F_createPaystackSubscription
         :: HttpPost subscription_url (obj [("customer", customerCode); ("plan", planCode)])
         :: tail, Ok r) /\
    Forall is_console tail /\
    match axios_post W subscription_url (obj [("customer", customerCode); ("plan", planCode)])
    with
    | Ok d =>
        if truthy (opt_get d "status")
        then r = SubscriptionResult.mk true (opt_get d "data") VUndefined
        else SubscriptionResult.success r = false /\ SubscriptionResult.data r = VUndefined /\
             truthy (SubscriptionResult.error r) = true
    | Throw _ =>
        SubscriptionResult.success r = false /\ SubscriptionResult.data r = VUndefined /\
        truthy (SubscriptionResult.error r) = true
    end.
Proof.
  unfold createPaystackSubscription, http_post. fold subscription_url. monad_norm.
  destruct (axios_post W subscription_url _) as [d|x]; cbn [bind try_catch emit app].
  2:{ do 2 eexists. split; [reflexivity|]. cbn.
      repeat split; try (repeat constructor). now apply truthy_or_else_text. }
  destruct (nullish d) eqn:Nd.
  { rewrite (get_nullish d "status" Nd), (opt_get_nullish d "status" Nd).
    cbn. do 2 eexists. split; [reflexivity|]. cbn. repeat split; repeat constructor. }
  rewrite (get_present d "status" Nd). cbn [lift bind app].
  destruct (truthy (opt_get d "status")).
  - rewrite (get_present d "data" Nd). cbn.
    do 2 eexists. split; [reflexivity|]. split; [constructor | reflexivity].
  - rewrite (get_present d "message" Nd). cbn.
    do 2 eexists. split; [reflexivity|]. cbn.
    repeat split; try constructor. now apply truthy_or_else_text.
Qed.

(** X3: createPaystackSubscription never throws and posts the customer and
    the plan to the gateway exactly once; it reports success, with the data
    of the answer, exactly when the answer has a truthy status; every failure
    comes without data and with a non-empty error. *)
Theorem createPaystackSubscription_report customerCode planCode :
  exists r tail,
    createPaystackSubscription W customerCode planCode
    = (Call F_createPaystackSubscription
         :: HttpPost subscription_url (obj [("customer", customerCode); ("plan", planCode)])
         :: tail, Ok r) /\
    Forall is_console tail /\
    SubscriptionResult.success r
    = match axios_post W subscription_url (obj [("customer", customerCode); ("plan", planCode)])
      with
      | Ok d => truthy (opt_get d "status")
      | Throw _ => false
      end /\
    (SubscriptionResult.success r = true ->
     exists d, axios_post W subscription_url (obj [("customer", customerCode); ("plan", planCode)])
               = Ok d /\ SubscriptionResult.data r = opt_get d "data") /\
    (SubscriptionResult.success r = false ->
     SubscriptionResult.data r = VUndefined /\ truthy (SubscriptionResult.error r) = true).
Proof.
  destruct (createPaystackSubscription_run customerCode planCode) as (r & tail & Hrun & Ht & Hr).
  exists r, tail. split; [exact Hrun|]. split; [exact Ht|].
  destruct (axios_post W subscription_url _) as [d|x].
  - destruct (truthy (opt_get d "status")).
    + subst r. cbn. repeat split; try discriminate. eauto.
    + destruct Hr as (-> & Hd & He). repeat split; try discriminate; auto.
  - destruct Hr as (-> & Hd & He). repeat split; try discriminate; auto.
Qed.

End Client.

Section Recurring.
Variable W : World.

(** X4: enableRecurringSubscription never throws and always posts the
    email to the gateway's customer endpoint; it reports success exactly when
    that answer carries data, and then the subscription code is the plan
    subscription's code if a plan is configured and the gateway created the
    subscription, the authorization code otherwise, so that a failed plan
    subscription is still reported as success.  Every failure comes with a
    non-empty error.  Without a configured plan the customer call is the only
    gateway call. *)
Theorem enableRecurringSubscription_report authorizationCode email :
  exists r,
    result (enableRecurringSubscription W authorizationCode email) = Ok r /\
    In (HttpPost customer_url (obj [("email", email)]))
       (effects (enableRecurringSubscription W authorizationCode email)) /\
    EnableResult.success r = customer_known W email /\
    (EnableResult.success r = true ->
     exists d,
       axios_post W customer_url (obj [("email", email)]) = Ok d /\
       EnableResult.subscriptionCode r
       = expected_subscription_code W authorizationCode
           (opt_get (opt_get d "data") "customer_code") /\
       EnableResult.error r = VUndefined) /\
    (EnableResult.success r = false -> truthy (EnableResult.error r) = true) /\
    (truthy (env_value W "PAYSTACK_PLAN_CODE") = false ->
     exists tail,
       effects (enableRecurringSubscription W authorizationCode email)
       = Call F_enableRecurringSubscription
           :: HttpPost customer_url (obj [("email", email)]) :: tail /\
       Forall is_console tail).
Proof.
  unfold enableRecurringSubscription, customer_known, expected_subscription_code, http_post.
  fold customer_url. monad_norm.
  destruct (axios_post W customer_url (obj [("email", email)])) as [d|x];
    cbn [bind try_catch emit app].
  2:{ eexists. split; [reflexivity|]. cbn. repeat split; try discriminate; auto.
      - intros _. now apply truthy_or_else_text.
      - intros _. eexists. split; [reflexivity|]. repeat constructor. }
  destruct (nullish d) eqn:Nd.
  { unfold path. rewrite (get_nullish d "data" Nd). cbn.
    eexists. split; [reflexivity|]. cbn. repeat split; try discriminate; auto.
    intros _. eexists. split; [reflexivity|]. repeat constructor. }
  unfold path. rewrite (get_present d "data" Nd).
  destruct (nullish (opt_get d "data")) eqn:Ndd.
  { rewrite (get_nullish _ "customer_code" Ndd). cbn.
    eexists. split; [reflexivity|]. cbn. repeat split; try discriminate; auto.
    intros _. eexists. split; [reflexivity|]. repeat constructor. }
  rewrite (get_present _ "customer_code" Ndd). cbn [lift bind app ret negb andb].
  destruct (truthy (env_value W "PAYSTACK_PLAN_CODE")) eqn:Hplan.
  - destruct (createPaystackSubscription_run W
                (opt_get (opt_get d "data") "customer_code")
                (env_value W "PAYSTACK_PLAN_CODE")) as (sr & tail & Hrun & Ht & Hsr).
    rewrite (bind_run _ _ _ _ Hrun).
    destruct (axios_post W subscription_url _) as [d'|x'] eqn:Hsub;
      [destruct (truthy (opt_get d' "status")) eqn:Hst|].
    + subst sr. cbn. eexists. split; [reflexivity|]. cbn.
      repeat split; try discriminate; auto.
      intros _. exists d. now rewrite Hsub, Hst.
    + destruct Hsr as (Hs & _ & _). rewrite Hs. cbn.
      eexists. split; [reflexivity|]. cbn.
      repeat split; try discriminate; auto.
      intros _. exists d. now rewrite Hsub, Hst.
    + destruct Hsr as (Hs & _ & _). rewrite Hs. cbn.
      eexists. split; [reflexivity|]. cbn.
      repeat split; try discriminate; auto.
      intros _. exists d. now rewrite Hsub.
  - cbn. eexists. split; [reflexivity|]. cbn.
    repeat split; try discriminate; auto.
    + intros _. eauto.
    + intros _. eexists. split; [reflexivity|]. constructor.
Qed.

End Recurring.

Lemma enableRecurringSubscription_report_witness :
  exists r,
    result (enableRecurringSubscription Scenario.plan_unavailable
              (VStr "AUTH_1") (VStr "thandi@example.com")) = Ok r /\
    EnableResult.success r = true /\
    EnableResult.subscriptionCode r = VStr "AUTH_1".
Proof.
  destruct (enableRecurringSubscription_report Scenario.plan_unavailable
              (VStr "AUTH_1") (VStr "thandi@example.com"))
    as (r & Hr & _ & Hs & Hcode & _).
  exists r. split; [exact Hr|].
  assert (Hok : EnableResult.success r = true) by (rewrite Hs; vm_compute; reflexivity).
  split; [exact Hok|].
  destruct (Hcode Hok) as (d & Hd & -> & _).
  vm_compute in Hd. injection Hd as <-. vm_compute. reflexivity.
Defined.

(** ** The webhook route beyond the claims *)

Lemma bind_emit_run {B} e (k : unit -> M B) t r :
  k tt = (t, r) -> bind (emit e) k = (e :: t, r).
Proof. intros H. rewrite bind_emit, H. reflexivity. Qed.

Lemma bind_run_then {A B} (m : M A) (k : A -> M B) t1 a t2 r :
  m = (t1, Ok a) -> k a = (t2, r) -> bind m k = (t1 ++ t2, r).
Proof. intros Hm Hk. rewrite (bind_run _ _ _ _ Hm), Hk. reflexivity. Qed.


Section Success.
Variable W : World.
Import Webhook.


(** X5: when the gateway does not confirm the transaction (or the event
    has no reference to ask about), handlePaymentSuccess changes nothing
    outside: no gateway POST, no recurring subscription, no email; after the
    verification query it only logs. *)
Theorem unverified_payment_changes_nothing event :
  (forall reference,
     path event ["data"; "reference"] = Ok reference ->
     gateway_confirms W reference = false) ->
  only (fun e => ~ is_outward e) (handlePaymentSuccess W event) /\
  (forall reference,
     path event ["data"; "reference"] = Ok reference ->
     exists tail,
       effects (handlePaymentSuccess W event)
       = [Call F_handlePaymentSuccess; Call F_verifyPaystackTransaction;
          HttpGet (verify_url reference)]
         ++ tail ++ [Console Warn "Payment verification failed:"] /\
       Forall is_console tail).
Proof.
  intros Hno. pose proof (handlePaymentSuccess_effects W event) as Hshape.
  destruct (path event ["data"; "reference"]) as [reference|x].
  - destruct Hshape as (tail & rest & Heff & Htail & Hrest).
    rewrite (Hrest (Hno reference eq_refl)) in Heff. split.
    + unfold only. rewrite Heff.
      repeat (apply Forall_cons; split; [simpl; tauto|]).
      apply Forall_app. split; [|repeat constructor; simpl; tauto].
      eapply Forall_impl; [exact Htail|]. intros [] Hc; simpl in *; tauto.
    + intros reference' [= <-]. exists tail. split; [exact Heff | exact Htail].
  - split; [|discriminate]. unfold only. rewrite Hshape.
    repeat constructor; simpl; tauto.
Qed.

End Success.

Lemma unverified_payment_changes_nothing_witness :
  only (fun e => ~ is_outward e)
       (Webhook.handlePaymentSuccess Fake.live (Fake.denote Fake.charge_success_unconfirmed)).
Proof.
  apply (unverified_payment_changes_nothing Fake.live
           (Fake.denote Fake.charge_success_unconfirmed)).
  intros reference H. vm_compute in H. injection H as <-. vm_compute. reflexivity.
Defined.

Section Verified.
Variable W : World.
Import Webhook.


End Verified.


(** X7: an event that is neither charge.success nor charge.failed
    (subscription.create, subscription.disable, anything else) is only
    logged: whatever the signature, the route contacts neither the gateway
    nor the mail provider and enters no handler. *)
Theorem other_events_are_only_logged W request event kind :
  JSON_parse W (Webhook.text request) = Ok event ->
  get event "event" = Ok kind ->
  is_str kind "charge.success" = false ->
  is_str kind "charge.failed" = false ->
  only is_console (Webhook.POST W request).
Proof.
  intros Hparse Hkind Hs Hf.
  destruct (signature_passes W request) eqn:Hsig.
  - rewrite (POST_accepts W request Hsig), Hparse.
    destruct (path event ["data"; "customer"; "email"]); [|repeat constructor].
    unfold only. cbn [effects fst]. apply Forall_cons. split; [exact I|].
    unfold Webhook.dispatch. monad_norm. rewrite Hkind, bind_lift_ok, Hs, Hf.
    repeat match goal with
           | |- context [if ?b then _ else _] => destruct b
           end;
      first [ apply (only_emit is_console); exact I
            | apply (only_bind is_console);
              [apply only_lift | intros ? _; apply only_emit; exact I] ].
  - rewrite (POST_rejects W request Hsig).
    destruct (Webhook.x_paystack_signature request) as [[|c s]|]; repeat constructor.
Qed.

Lemma other_events_are_only_logged_witness :
  only is_console
       (Webhook.POST Scenario.with_subscription_events
          (Fake.signed Scenario.with_subscription_events Scenario.subscription_event)).
Proof.
  apply (other_events_are_only_logged Scenario.with_subscription_events
           (Fake.signed Scenario.with_subscription_events Scenario.subscription_event)
           (Fake.denote Scenario.subscription_event) (VStr "subscription.create"));
    vm_compute; reflexivity.
Defined.

(** ** Creating the customer *)

Lemma opt_get_obj_cons k v fields p :
  opt_get (obj ((k, v) :: fields)) p = if String.eqb k p then v else opt_get (obj fields) p.
Proof.
  unfold opt_get, get, obj. cbn [list_to_map foldr curry fst snd].
  destruct (String.eqb_spec k p) as [->|Hne].
  - now rewrite lookup_insert_eq.
  - now rewrite lookup_insert_ne.
Qed.

Lemma opt_get_obj_nil p : opt_get (obj []) p = VUndefined.
Proof. reflexivity. Qed.

Lemma split_space_nonempty s : split_space s <> [].
Proof.
  destruct s as [|c s]; simpl; [discriminate|].
  destruct (Ascii.eqb c " "); [discriminate|].
  destruct (split_space s); discriminate.
Qed.

Lemma join_cons (sep a b : string) l :
  join sep (a :: b :: l) = a +:+ sep +:+ join sep (b :: l).
Proof. reflexivity. Qed.

(** Joining the parts with spaces gives the string back. *)
Lemma join_split_space s : join " " (split_space s) = s.
Proof.
  induction s as [|c s IH]; [reflexivity|]. simpl.
  destruct (Ascii.eqb_spec c " ") as [->|Hc].
  - pose proof (split_space_nonempty s) as Hne.
    destruct (split_space s) as [|w ws] eqn:E; [contradiction|].
    now rewrite join_cons, IH.
  - destruct (split_space s) as [|w ws] eqn:E; [now destruct (split_space_nonempty s)|].
    destruct ws as [|w' ws].
    + cbn [join] in *. now subst.
    + rewrite join_cons in *. now rewrite <- IH.
Qed.

Lemma split_space_head s : string_forall (fun c => negb (is_space_char c)) (hd "" (split_space s)) = true.
Proof.
  induction s as [|c s IH]; [reflexivity|]. simpl.
  destruct (Ascii.eqb c " ") eqn:Hc; [reflexivity|].
  destruct (split_space s) as [|w ws]; simpl in *; unfold is_space_char; rewrite Hc; auto.
Qed.

Section Customer.
Variable W : World.

Lemma name_parts s :
  let parts := split_space s in
  let first := hd "" parts in
  let last := if (0 <? length (tl parts))%nat then join " " (tl parts) else "" in
  string_forall (fun c => negb (is_space_char c)) first = true /\
  (s = first /\ last = "" /\ string_forall (fun c => negb (is_space_char c)) s = true
   \/ s = first +:+ " " +:+ last).
Proof.
  cbv zeta. pose proof (split_space_head s) as Hhead.
  pose proof (join_split_space s) as Hjoin.
  pose proof (split_space_nonempty s) as Hne.
  destruct (split_space s) as [|f rest]; [contradiction|].
  cbn [hd tl] in *. split; [exact Hhead|].
  destruct rest as [|w ws].
  - left. cbn in *. subst. auto.
  - right. rewrite join_cons in Hjoin. cbn [length Nat.ltb Nat.leb]. now rewrite Hjoin.
Qed.

(** X8: for a name that is text, createOrGetPaystackCustomer first posts
    the customer to the gateway with the submitted email and phone and with
    the name cut at its first space: the first name is everything before it
    and has no space, the last name everything after it, so that first name,
    a space and last name give the name back; a name without a space is the
    first name, with an empty last name. *)
Theorem customer_name_is_cut_at_first_space data s :
  SubscriptionData.name data = VStr s ->
  exists first last tail,
    effects (createOrGetPaystackCustomer W data)
    = Call F_createOrGetPaystackCustomer
        :: HttpPost customer_url (customer_payload W data (split_space s)) :: tail /\
    opt_get (customer_payload W data (split_space s)) "first_name" = VStr first /\
    opt_get (customer_payload W data (split_space s)) "last_name" = VStr last /\
    opt_get (customer_payload W data (split_space s)) "email" = SubscriptionData.email data /\
    opt_get (customer_payload W data (split_space s)) "phone" = SubscriptionData.phone data /\
    string_forall (fun c => negb (is_space_char c)) first = true /\
    (s = first /\ last = "" /\ string_forall (fun c => negb (is_space_char c)) s = true
     \/ s = first +:+ " " +:+ last).
Proof.
  intros Hname. destruct (name_parts s) as [Hfirst Hcut].
  eexists _, _, _. split; [|split; [|split; [|split; [|split; [|split]]]]].
  - unfold createOrGetPaystackCustomer. monad_norm. rewrite Hname. cbn [split_method].
    rewrite bind_lift_ok, bind_emit. cbn [effects fst].
    rewrite effects_try_catch, effects_bind. unfold http_post at 1. cbn [effects fst app].
    reflexivity.
  - unfold customer_payload. rewrite !opt_get_obj_cons. cbn. reflexivity.
  - unfold customer_payload. rewrite !opt_get_obj_cons. cbn. reflexivity.
  - unfold customer_payload. rewrite !opt_get_obj_cons. reflexivity.
  - unfold customer_payload. rewrite !opt_get_obj_cons. reflexivity.
  - exact Hfirst.
  - exact Hcut.
Qed.


End Customer.

Lemma customer_name_is_cut_at_first_space_witness :
  exists first last tail,
    effects (createOrGetPaystackCustomer Fake.live Scenario.subscriber_data)
    = Call F_createOrGetPaystackCustomer
        :: HttpPost customer_url
             (customer_payload Fake.live Scenario.subscriber_data (split_space "Thandi Nkosi"))
        :: tail /\
    opt_get (customer_payload Fake.live Scenario.subscriber_data (split_space "Thandi Nkosi"))
            "first_name" = VStr first /\
    opt_get (customer_payload Fake.live Scenario.subscriber_data (split_space "Thandi Nkosi"))
            "last_name" = VStr last /\
    opt_get (customer_payload Fake.live Scenario.subscriber_data (split_space "Thandi Nkosi"))
            "email" = SubscriptionData.email Scenario.subscriber_data /\
    opt_get (customer_payload Fake.live Scenario.subscriber_data (split_space "Thandi Nkosi"))
            "phone" = SubscriptionData.phone Scenario.subscriber_data /\
    string_forall (fun c => negb (is_space_char c)) first = true /\
    ("Thandi Nkosi" = first /\ last = "" /\
     string_forall (fun c => negb (is_space_char c)) "Thandi Nkosi" = true
     \/ "Thandi Nkosi" = first +:+ " " +:+ last).
Proof.
  apply (customer_name_is_cut_at_first_space Fake.live Scenario.subscriber_data "Thandi Nkosi").
  vm_compute. reflexivity.
Defined.


(** ** Initializing the transaction *)
Section Initialize.
Variable W : World.

Lemma createOrGetPaystackCustomer_quiet data :
  only (fun e => ~ is_initialize_post e /\ ~ is_mail e) (createOrGetPaystackCustomer W data).
Proof.
  unfold createOrGetPaystackCustomer. only_tac; simpl; try tauto.
  split; [|tauto]. intros H. vm_compute in H. discriminate.
Qed.

Ltac not_initialize Hno :=
  let e := fresh "e" in
  let Hin := fresh "Hin" in
  let He := fresh "He" in
  intros e Hin He; exfalso;
  repeat match goal with
         | H : _ = e |- _ => subst e
         | H : _ \/ _ |- _ => destruct H
         | H : In _ (_ :: _) |- _ => simpl in H
         | H : In _ (_ ++ _) |- _ => apply in_app_or in H
         | H : In _ [] |- _ => destruct H
         | H : False |- _ => destruct H
         | H : is_initialize_post (Call _) |- _ => destruct H
         | H : is_initialize_post (Console _ _) |- _ => destruct H
         | H : In ?e ?tc, H' : is_initialize_post ?e |- _ => exact (Hno e H H')
         end.

Ltac no_mail Hmail :=
  repeat first [ exact Hmail
               | apply Forall_app; split
               | apply List.Forall_cons
               | apply List.Forall_nil
               | simpl; tauto ].

Ltac initialize_fails Hno Hmail :=
  cbn; eexists; (split; [reflexivity|]); cbn; rewrite ?app_nil_r;
  (split; [intros _; now apply truthy_or_else_text|]);
  (split; [not_initialize Hno|]);
  (split; [discriminate|]);
  no_mail Hmail.

Ltac after_initialize Hno Hcode :=
  let e := fresh "e" in
  let Hin := fresh "Hin" in
  let He := fresh "He" in
  intros e Hin He;
  repeat match goal with
         | H : _ = e |- _ => subst e
         | H : _ \/ _ |- _ => destruct H
         | H : In _ (_ :: _) |- _ => simpl in H
         | H : In _ (_ ++ _) |- _ => apply in_app_or in H
         | H : In _ [] |- _ => destruct H
         | H : False |- _ => destruct H
         | H : is_initialize_post (Call _) |- _ => destruct H
         | H : is_initialize_post (Console _ _) |- _ => destruct H
         | H : In ?e ?tc, H' : is_initialize_post ?e |- _ => destruct (Hno e H H')
         end;
  eexists _, _; (split; [reflexivity|]); (split; [reflexivity|]);
  (split; [exact Hcode|]); (split; [reflexivity|]); subst; reflexivity.

Ltac initialize_posted Hno Hmail Hcode :=
  cbn; eexists; (split; [reflexivity|]); cbn; rewrite ?app_nil_r;
  (split; [first [discriminate | intros _; now apply truthy_or_else_text]|]);
  (split; [after_initialize Hno Hcode|]);
  (split; [first [discriminate
                 | intros _; eexists (HttpPost _ _);
                   split; [rewrite ?in_app_iff; simpl; tauto | subst; reflexivity]]|]);
  no_mail Hmail.

Lemma initializePaystackSubscription_run data :
  exists r,
    result (initializePaystackSubscription W data) = Ok r /\
    (InitializeResult.success r = false -> truthy (InitializeResult.error r) = true) /\
    (forall e,
       In e (effects (initializePaystackSubscription W data)) ->
       is_initialize_post e ->
       exists cr parts,
         result (createOrGetPaystackCustomer W data) = Ok cr /\
         CustomerResult.success cr = true /\
         truthy (CustomerResult.customer_code cr) = true /\
         split_method (SubscriptionData.name data) = Ok parts /\
         e = HttpPost initialize_url
               (initialize_payload W data (CustomerResult.customer_code cr) parts)) /\
    (InitializeResult.success r = true ->
     exists e, In e (effects (initializePaystackSubscription W data)) /\
               is_initialize_post e) /\
    Forall (fun e => ~ is_mail e) (effects (initializePaystackSubscription W data)).
Proof.
  pose proof (createOrGetPaystackCustomer_quiet data) as Hquiet. unfold only in Hquiet.
  assert (Hno : forall e, In e (effects (createOrGetPaystackCustomer W data)) ->
                          is_initialize_post e -> False).
  { intros e Hin He. rewrite Forall_forall in Hquiet.
    apply (proj1 (Hquiet e (proj2 (list_elem_of_In _ _) Hin))), He. }
  assert (Hmail : Forall (fun e => ~ is_mail e) (effects (createOrGetPaystackCustomer W data))).
  { eapply Forall_impl; [exact Hquiet|]. intros e He. exact (proj2 He). }
  clear Hquiet.
  unfold initializePaystackSubscription, http_post. monad_norm.
  destruct (createOrGetPaystackCustomer W data) as [tc [cr|x]]; cbn [effects fst] in Hno, Hmail.
  2: now initialize_fails Hno Hmail.
  destruct cr as [ok code err].
  cbn [bind CustomerResult.success CustomerResult.customer_code CustomerResult.error].
  destruct ok; cbn [negb orb].
  2: now initialize_fails Hno Hmail.
  destruct (truthy code) eqn:Hcode; cbn [negb orb].
  2: now initialize_fails Hno Hmail.
  destruct (split_method (SubscriptionData.name data)) as [parts|y] eqn:Hparts.
  2: now initialize_fails Hno Hmail.
  cbn [lift bind].
  match goal with
  | |- context [axios_post W ?u ?p] =>
      change p with (initialize_payload W data code parts);
      change u with initialize_url
  end.
  remember (initialize_payload W data code parts) as payload eqn:Hpayload.
  remember initialize_url as url eqn:Hurl.
  destruct (axios_post W url payload) as [d|y].
  2: now initialize_posted Hno Hmail Hcode.
  cbn [bind].
  destruct (get d "status") as [status|y] eqn:Hstatus; cbn [lift bind].
  2: now initialize_posted Hno Hmail Hcode.
  destruct (truthy status).
  - destruct (path d ["data"; "authorization_url"]) as [authorization|y].
    2: now initialize_posted Hno Hmail Hcode.
    destruct (path d ["data"; "reference"]) as [reference|y].
    2: now initialize_posted Hno Hmail Hcode.
    now initialize_posted Hno Hmail Hcode.
  - destruct (get d "message") as [message|y]; cbn [lift bind].
    2: now initialize_posted Hno Hmail Hcode.
    now initialize_posted Hno Hmail Hcode.
Qed.

(** X10: initializePaystackSubscription never throws, whatever the name is
    and whatever the gateway does: it always returns a report, every
    unsuccessful report carries a truthy error text, and no mail is sent. *)
Theorem initializePaystackSubscription_always_reports data :
  exists r,
    result (initializePaystackSubscription W data) = Ok r /\
    (InitializeResult.success r = false -> truthy (InitializeResult.error r) = true) /\
    only (fun e => ~ is_mail e) (initializePaystackSubscription W data).
Proof.
  destruct (initializePaystackSubscription_run data) as (r & Hr & Herr & _ & _ & Hmail).
  exists r. repeat split; assumption.
Qed.

(** X11: a transaction is initialized only for a customer the gateway
    knows.  Every POST to /transaction/initialize made by
    initializePaystackSubscription comes after createOrGetPaystackCustomer
    has succeeded with a truthy customer code, and carries the payload built
    from the subscription data and that code; and a successful report is
    never produced without such a POST. *)
Theorem transaction_is_initialized_for_a_known_customer data :
  (forall e,
     In e (effects (initializePaystackSubscription W data)) ->
     is_initialize_post e ->
     exists cr parts,
       result (createOrGetPaystackCustomer W data) = Ok cr /\
       CustomerResult.success cr = true /\
       truthy (CustomerResult.customer_code cr) = true /\
       split_method (SubscriptionData.name data) = Ok parts /\
       e = HttpPost initialize_url
             (initialize_payload W data (CustomerResult.customer_code cr) parts)) /\
  (forall r,
     result (initializePaystackSubscription W data) = Ok r ->
     InitializeResult.success r = true ->
     exists e, In e (effects (initializePaystackSubscription W data)) /\
               is_initialize_post e).
Proof.
  destruct (initializePaystackSubscription_run data) as (r & Hr & _ & Hpost & Hsucc & _).
  split; [exact Hpost|].
  intros r' Hr' Hs. rewrite Hr in Hr'. injection Hr' as <-. exact (Hsucc Hs).
Qed.

(** X12: what the gateway is asked to charge.  Any payload posted to
    /transaction/initialize names the subscriber's email, a truthy customer
    code, the currency ZAR, the configured amount, the fresh reference and
    the recurring subscription type; and it has a plan exactly when
    PAYSTACK_PLAN_CODE is set to a truthy value. *)
Theorem initialize_payload_fields data url payload :
  In (HttpPost url payload) (effects (initializePaystackSubscription W data)) ->
  url = initialize_url ->
  opt_get payload "email" = SubscriptionData.email data /\
  truthy (opt_get payload "customer") = true /\
  opt_get payload "currency" = VStr "ZAR" /\
  opt_get payload "amount"
  = parseFloat_times_100 W (env_or W "NEXT_PUBLIC_SUBSCRIPTION_AMOUNT" "399") /\
  opt_get payload "reference" = VStr (fresh_reference W) /\
  opt_get (opt_get payload "metadata") "subscription_type" = VStr "recurring" /\
  opt_get payload "plan"
  = (if truthy (env_value W "PAYSTACK_PLAN_CODE")
     then env_value W "PAYSTACK_PLAN_CODE" else VUndefined).
Proof.
  intros Hin Hurl.
  destruct (initializePaystackSubscription_run data) as (_ & _ & _ & Hpost & _ & _).
  destruct (Hpost _ Hin Hurl) as (cr & parts & _ & _ & Hcode & _ & He).
  injection He as _ ->. unfold initialize_payload. cbv zeta.
  destruct (truthy (env_value W "PAYSTACK_PLAN_CODE")); cbn [app];
    repeat (rewrite opt_get_obj_cons; cbn [String.eqb Ascii.eqb Bool.eqb]);
    rewrite ?opt_get_obj_nil; repeat split; try reflexivity; exact Hcode.
Qed.

End Initialize.

Lemma initialize_payload_fields_witness :
  opt_get (initialize_payload Fake.live Scenario.subscriber_data (VStr "CUS_1")
             (split_space "Thandi Nkosi")) "currency" = VStr "ZAR" /\
  opt_get (initialize_payload Fake.live Scenario.subscriber_data (VStr "CUS_1")
             (split_space "Thandi Nkosi")) "plan" = VUndefined.
Proof.
  assert (Hin : In (HttpPost initialize_url
                      (initialize_payload Fake.live Scenario.subscriber_data (VStr "CUS_1")
                         (split_space "Thandi Nkosi")))
                   (effects (initializePaystackSubscription Fake.live
                               Scenario.subscriber_data))).
  { right. right. right. left. reflexivity. }
  destruct (initialize_payload_fields Fake.live Scenario.subscriber_data _ _ Hin eq_refl)
    as (_ & _ & Hcurrency & _ & _ & _ & Hplan).
  split; [exact Hcurrency | exact Hplan].
Defined.

(** ** The subscription route, past validation *)
Section SubscribeFlow.
Variable W : World.
Import Subscribe.

Lemma has_required_fields_inv body :
  has_required_fields body = true ->
  nullish body = false /\ truthy (opt_get body "name") = true /\
  truthy (opt_get body "email") = true /\ truthy (opt_get body "phone") = true.
Proof.
  unfold has_required_fields. rewrite !andb_true_iff, negb_true_iff. tauto.
Qed.

Lemma POST_not_initialized request body t r :
  body_json request = Ok body ->
  has_required_fields body = true ->
  initializePaystackSubscription W (subscription_data body) = (t, Ok r) ->
  InitializeResult.success r = false ->
  POST W request
  = (t, Ok (mkResponse 500
              (obj [("error", or_else (InitializeResult.error r)
                                      (VStr "Failed to initialize payment"))]))).
Proof.
  intros Hb Hf Hinit Hs. destruct (has_required_fields_inv _ Hf) as (Nb & Hn & He & Hp).
  unfold POST. monad_norm.
  rewrite Hb, bind_lift_ok, !(get_present body _ Nb), !bind_lift_ok.
  rewrite Hn, He, Hp. cbn [negb orb].
  change (SubscriptionData.mk _ _ _ _ _) with (subscription_data body).
  rewrite (bind_run _ _ _ _ Hinit), Hs. cbn. now rewrite app_nil_r.
Qed.

Lemma POST_initialized request body t r :
  body_json request = Ok body ->
  has_required_fields body = true ->
  initializePaystackSubscription W (subscription_data body) = (t, Ok r) ->
  InitializeResult.success r = true ->
  exists s1 s2,
    POST W request
    = (t ++ [Call F_sendSubscriptionInitiatedEmail;
             PlunkSend (subscription_initiated_message
                          (subscription_email_data body (InitializeResult.authorizationUrl r)));
             s1;
             Call F_sendNewSubscriptionNotification;
             PlunkSend (new_subscription_message W
                          (subscription_email_data body (InitializeResult.authorizationUrl r)));
             s2],
       Ok (mkResponse 200
             (obj [("redirectUrl", InitializeResult.authorizationUrl r);
                   ("reference", InitializeResult.reference r)]))) /\
    is_console s1 /\ is_console s2.
Proof.
  intros Hb Hf Hinit Hs. destruct (has_required_fields_inv _ Hf) as (Nb & Hn & He & Hp).
  set (d := subscription_email_data body (InitializeResult.authorizationUrl r)).
  destruct (sendSubscriptionInitiatedEmail_swallows W d) as (s1 & Hs1 & C1).
  destruct (sendNewSubscriptionNotification_swallows W d) as (s2 & Hs2 & C2).
  exists s1, s2. split; [|now split].
  unfold POST. monad_norm.
  rewrite Hb, bind_lift_ok, !(get_present body _ Nb), !bind_lift_ok.
  rewrite Hn, He, Hp. cbn [negb orb].
  change (SubscriptionData.mk _ _ _ _ _) with (subscription_data body).
  rewrite (bind_run _ _ _ _ Hinit), Hs. cbn [negb].
  change (SubscriptionEmailData.mk _ _ _ _ _ _) with d.
  rewrite Hs1, Hs2. cbn. reflexivity.
Qed.


(** X14: a complete request whose transaction cannot be initialized is
    answered 500 with the error text of the initialization report, and no
    email is sent.  The report's error is always truthy, so the route's own
    fallback text 'Failed to initialize payment' is never the one chosen by
    the route. *)
Theorem subscribe_gateway_failure_sends_no_mail request body r :
  body_json request = Ok body ->
  has_required_fields body = true ->
  result (initializePaystackSubscription W (subscription_data body)) = Ok r ->
  InitializeResult.success r = false ->
  POST W request
  = (effects (initializePaystackSubscription W (subscription_data body)),
     Ok (mkResponse 500 (obj [("error", InitializeResult.error r)]))) /\
  only (fun e => ~ is_mail e) (POST W request).
Proof.
  intros Hb Hf Hr Hs.
  destruct (initializePaystackSubscription_run W (subscription_data body))
    as (r' & Hr' & Herr & _ & _ & Hmail).
  rewrite Hr in Hr'. injection Hr' as <-.
  destruct (initializePaystackSubscription W (subscription_data body)) as [t o] eqn:Hinit.
  cbn [result snd] in Hr. subst o.
  rewrite (POST_not_initialized request body t r Hb Hf Hinit Hs).
  unfold or_else. rewrite (Herr Hs). split; [reflexivity|exact Hmail].
Qed.

(** X15: validation only asks for a truthy name.  A complete request whose
    name is not a string passes it, fails inside the customer step before
    anything is sent to the gateway, and is answered 500 'Failed to create
    customer'. *)
Theorem subscribe_name_must_be_text request body :
  body_json request = Ok body ->
  has_required_fields body = true ->
  (forall s, opt_get body "name" <> VStr s) ->
  POST W request
  = ([Call F_initializePaystackSubscription;
      Call F_createOrGetPaystackCustomer;
      Console Error "Paystack customer creation error:"],
     Ok (mkResponse 500 (obj [("error", VStr "Failed to create customer")]))).
Proof.
  intros Hb Hf Hname.
  rewrite (POST_not_initialized request body
             [Call F_initializePaystackSubscription;
              Call F_createOrGetPaystackCustomer;
              Console Error "Paystack customer creation error:"]
             (InitializeResult.mk false VUndefined VUndefined
                (VStr "Failed to create customer")) Hb Hf); [reflexivity| |reflexivity].
  unfold initializePaystackSubscription, createOrGetPaystackCustomer. monad_norm.
  cbn [subscription_data SubscriptionData.name].
  destruct (opt_get body "name") as [| | | |s| |]; try reflexivity.
  destruct (Hname s eq_refl).
Qed.

(** X16: the subscription route never throws and answers 200, 400 or 500.
    It answers 400 exactly when the body is an object missing a required
    field, and 200 exactly when the fields are there and the transaction was
    initialized; emails are sent only with a 200. *)
Theorem subscribe_answers request :
  exists response,
    result (POST W request) = Ok response /\
    (status response = 200 \/ status response = 400 \/ status response = 500) /\
    (status response = 400 <->
     exists body, body_json request = Ok body /\ nullish body = false /\
                  has_required_fields body = false) /\
    (status response = 200 <->
     exists body r,
       body_json request = Ok body /\ has_required_fields body = true /\
       result (initializePaystackSubscription W (subscription_data body)) = Ok r /\
       InitializeResult.success r = true) /\
    (Exists is_mail (effects (POST W request)) -> status response = 200).
Proof.
  assert (Hunreadable :
            POST W request
            = ([Console Error "Subscription error:"],
               Ok (mkResponse 500 (obj [("error", VStr "Failed to initiate subscription")]))) ->
            (forall body, body_json request = Ok body -> nullish body = true) ->
            exists response,
              result (POST W request) = Ok response /\
              (status response = 200 \/ status response = 400 \/ status response = 500) /\
              (status response = 400 <->
               exists body, body_json request = Ok body /\ nullish body = false /\
                            has_required_fields body = false) /\
              (status response = 200 <->
               exists body r,
                 body_json request = Ok body /\ has_required_fields body = true /\
                 result (initializePaystackSubscription W (subscription_data body)) = Ok r /\
                 InitializeResult.success r = true) /\
              (Exists is_mail (effects (POST W request)) -> status response = 200)).
  { intros -> Hnull. eexists. split; [reflexivity|]. cbn [status effects fst].
    split; [auto|]. split; [|split].
    - split; [discriminate|]. intros (body & Hb & Nb & _).
      rewrite (Hnull body Hb) in Nb. discriminate.
    - split; [discriminate|]. intros (body & r & Hb & Hf & _).
      destruct (has_required_fields_inv _ Hf) as (Nb & _).
      rewrite (Hnull body Hb) in Nb. discriminate.
    - intros H. apply Exists_cons in H as [[]|H]. now apply Exists_nil in H. }
  destruct (body_json request) as [body|x] eqn:Hb.
  2:{ apply Hunreadable; [|discriminate]. apply POST_unreadable. eauto. }
  destruct (nullish body) eqn:Nb.
  { apply Hunreadable.
    - apply POST_unreadable. destruct body; try discriminate; auto.
    - intros body' Hb'. injection Hb' as <-. exact Nb. }
  clear Hunreadable.
  destruct (has_required_fields body) eqn:Hf.
  2:{ rewrite (POST_missing W request body Hb Nb).
      2:{ unfold has_required_fields in Hf. rewrite Nb in Hf. exact Hf. }
      eexists. split; [reflexivity|]. cbn [status rejection effects fst].
      split; [auto|]. split; [|split].
      - split; [|reflexivity]. intros _. exists body. auto.
      - split; [discriminate|]. intros (body' & r & Hb' & Hf' & _).
        injection Hb' as <-. rewrite Hf in Hf'. discriminate.
      - intros H. now apply Exists_nil in H. }
  destruct (initializePaystackSubscription_run W (subscription_data body))
    as (r & Hr & Herr & _ & _ & Hmail).
  destruct (initializePaystackSubscription W (subscription_data body)) as [t o] eqn:Hinit.
  cbn [result snd effects fst] in Hr, Hmail. subst o.
  destruct (InitializeResult.success r) eqn:Hs.
  - destruct (POST_initialized request body t r Hb Hf Hinit Hs) as (s1 & s2 & -> & _).
    eexists. split; [reflexivity|]. cbn [status].
    split; [auto|]. split; [|split].
    + split; [discriminate|]. intros (body' & Hb' & _ & Hf').
      injection Hb' as <-. rewrite Hf in Hf'. discriminate.
    + split; [|reflexivity]. intros _. exists body, r. rewrite Hinit. auto.
    + reflexivity.
  - rewrite (POST_not_initialized request body t r Hb Hf Hinit Hs).
    eexists. split; [reflexivity|]. cbn [status effects fst].
    split; [auto|]. split; [|split].
    + split; [discriminate|]. intros (body' & Hb' & _ & Hf').
      injection Hb' as <-. rewrite Hf in Hf'. discriminate.
    + split; [discriminate|]. intros (body' & r' & Hb' & _ & Hr' & Hs').
      injection Hb' as <-. rewrite Hinit in Hr'. cbn in Hr'. injection Hr' as <-.
      rewrite Hs in Hs'. discriminate.
    + intros H. exfalso. rewrite Exists_exists in H. destruct H as (e & Hin & He).
      rewrite Forall_forall in Hmail. exact (Hmail e Hin He).
Qed.

End SubscribeFlow.


Lemma subscribe_gateway_failure_sends_no_mail_witness :
  result (Subscribe.POST Scenario.declined (Subscribe.mkRequest (Ok Scenario.subscriber)))
  = Ok (mkResponse 500 (obj [("error", VStr "Invalid key")])).
Proof.
  destruct (subscribe_gateway_failure_sends_no_mail Scenario.declined
              (Subscribe.mkRequest (Ok Scenario.subscriber)) Scenario.subscriber
              (InitializeResult.mk false VUndefined VUndefined (VStr "Invalid key"))
              eq_refl eq_refl eq_refl eq_refl) as (HP & _).
  rewrite HP. reflexivity.
Defined.

Lemma subscribe_name_must_be_text_witness :
  Subscribe.POST Fake.live
    (Subscribe.mkRequest
       (Ok (obj [("name", VNum 7); ("email", VStr "thandi@example.com");
                 ("phone", VStr "0820000000")])))
  = ([Call F_initializePaystackSubscription;
      Call F_createOrGetPaystackCustomer;
      Console Error "Paystack customer creation error:"],
     Ok (mkResponse 500 (obj [("error", VStr "Failed to create customer")]))).
Proof.
  apply (subscribe_name_must_be_text Fake.live
           (Subscribe.mkRequest
              (Ok (obj [("name", VNum 7); ("email", VStr "thandi@example.com");
                        ("phone", VStr "0820000000")])))
           (obj [("name", VNum 7); ("email", VStr "thandi@example.com");
                 ("phone", VStr "0820000000")])
           eq_refl eq_refl).
  intros s H. vm_compute in H. discriminate H.
Defined.

(** ** A rejection the customer step does not survive *)
Section Escape.
Variable W : World.

(** X17: createOrGetPaystackCustomer is not total.  When the gateway
    rejects the customer with a message that is neither absent, nor a string,
    nor an array (a number, say), the test for 'already exists' inside the
    catch block throws, and the TypeError leaves the function; no lookup is
    made.  initializePaystackSubscription absorbs it: the initialization is
    never posted and the report carries the generic text instead of the
    gateway's message. *)
Theorem customer_rejection_without_text_escapes data s x :
  SubscriptionData.name data = VStr s ->
  axios_post W customer_url (customer_payload W data (split_space s)) = Throw x ->
  lacks_includes (error_message x) = true ->
  createOrGetPaystackCustomer W data
  = ([Call F_createOrGetPaystackCustomer;
      HttpPost customer_url (customer_payload W data (split_space s))],
     Throw TypeError) /\
  initializePaystackSubscription W data
  = ([Call F_initializePaystackSubscription;
      Call F_createOrGetPaystackCustomer;
      HttpPost customer_url (customer_payload W data (split_space s));
      Console Error "Paystack initialization error:"],
     Ok (InitializeResult.mk false VUndefined VUndefined
           (VStr "Failed to initialize payment"))).
Proof.
  intros Hname Hpost Hlacks.
  assert (Hc : createOrGetPaystackCustomer W data
               = ([Call F_createOrGetPaystackCustomer;
                   HttpPost customer_url (customer_payload W data (split_space s))],
                  Throw TypeError)).
  { unfold createOrGetPaystackCustomer, http_post. monad_norm.
    rewrite Hname. cbn [split_method]. rewrite bind_lift_ok.
    unfold customer_payload, customer_url in Hpost |- *. cbv zeta in Hpost |- *.
    rewrite Hpost. cbn [bind try_catch emit app].
    destruct (error_message x); try discriminate Hlacks; reflexivity. }
  split; [exact Hc|].
  unfold initializePaystackSubscription. monad_norm. rewrite Hc. reflexivity.
Qed.

End Escape.

Lemma customer_rejection_without_text_escapes_witness :
  result (createOrGetPaystackCustomer Scenario.numeric_message Scenario.subscriber_data)
  = Throw TypeError /\
  result (initializePaystackSubscription Scenario.numeric_message Scenario.subscriber_data)
  = Ok (InitializeResult.mk false VUndefined VUndefined
          (VStr "Failed to initialize payment")).
Proof.
  destruct (customer_rejection_without_text_escapes Scenario.numeric_message
              Scenario.subscriber_data "Thandi Nkosi"
              (AxiosError (obj [("data", obj [("message", VNum 409)])]))
              eq_refl eq_refl eq_refl) as [Hc Hi].
  rewrite Hc, Hi. split; reflexivity.
Defined.

(** ** Amounts, read back *)
Section ReadBack.

Lemma digit_is_digit d :
  0 <= d < 10 ->
  is_digit_char (digit d) = true /\ Z.of_nat (nat_of_ascii (digit d) - 48) = d.
Proof.
  intros H.
  assert (E : d = 0 \/ d = 1 \/ d = 2 \/ d = 3 \/ d = 4 \/ d = 5 \/ d = 6 \/ d = 7
              \/ d = 8 \/ d = 9) by lia.
  repeat (destruct E as [->|E]; [split; reflexivity|]). subst d. split; reflexivity.
Qed.

Lemma spelled_app acc (a b : string) : spelled acc (a +:+ b) = spelled (spelled acc a) b.
Proof.
  revert acc. induction a as [|c a IH]; intros acc; [reflexivity|].
  rewrite append_cons. simpl. apply IH.
Qed.

Lemma string_forall_app P (a b : string) :
  string_forall P (a +:+ b) = string_forall P a && string_forall P b.
Proof.
  induction a as [|c a IH]; [reflexivity|].
  rewrite append_cons. simpl. now rewrite IH, andb_assoc.
Qed.

Lemma spelled_digits q :
  0 <= q -> spelled 0 (digits q) = q /\ string_forall is_digit_char (digits q) = true.
Proof.
  intros Hq. generalize Hq. pattern q. apply Z_lt_induction; [|exact Hq].
  clear q Hq. intros q IH Hq.
  destruct (Z_lt_dec q 10) as [Hs|Hs].
  - rewrite digits_small by lia. destruct (digit_is_digit q) as [Hd Hv]; [lia|].
    cbn [spelled string_forall]. rewrite Hd, Hv. split; [reflexivity|reflexivity].
  - rewrite digits_step by lia.
    assert (Hlt : 0 <= q / 10 < q).
    { split; [apply Z.div_pos; lia | apply Z.div_lt; lia]. }
    destruct (IH (q / 10) Hlt (proj1 Hlt)) as [Hv Hall].
    destruct (digit_is_digit (q mod 10)) as [Hd Hw]; [apply Z.mod_pos_bound; lia|].
    rewrite spelled_app, string_forall_app, Hv, Hall. cbn [spelled string_forall andb]. rewrite Hd, Hw.
    split; [|reflexivity]. pose proof (Z.div_mod q 10 ltac:(lia)). lia.
Qed.

Lemma digits_head q :
  0 <= q -> exists c rest, digits q = String c rest /\ is_digit_char c = true.
Proof.
  intros Hq. destruct (spelled_digits q Hq) as [_ Hall].
  pose proof (digits_nonempty q) as Hne.
  destruct (digits q) as [|c rest]; [simpl in Hne; lia|].
  exists c, rest. cbn [string_forall] in Hall. apply andb_true_iff in Hall as [Hc _]. auto.
Qed.

Lemma formatPaystackAmount_spells W n :
  formatPaystackAmount W (VNum n) = two_decimal_currency n.
Proof.
  unfold formatPaystackAmount, div_100_toFixed_2, two_decimal_currency,
    toFixed_2_of_hundredths.
  now rewrite point_before_last_two_digits by apply Z.abs_nonneg.
Qed.

Lemma spelled_amount n : spelled 0 (two_decimal_currency n) = Z.abs n.
Proof.
  unfold two_decimal_currency.
  assert (Hx : 0 <= Z.abs n) by apply Z.abs_nonneg.
  set (x := Z.abs n) in *.
  assert (Hq : 0 <= x / 100) by (apply Z.div_pos; lia).
  destruct (spelled_digits (x / 100) Hq) as [Hv _].
  destruct (digit_is_digit (x / 10 mod 10)) as [Hd1 Hw1]; [apply Z.mod_pos_bound; lia|].
  destruct (digit_is_digit (x mod 10)) as [Hd0 Hw0]; [apply Z.mod_pos_bound; lia|].
  rewrite !spelled_app.
  replace (spelled 0 "R") with 0 by reflexivity.
  replace (spelled 0 (if n <? 0 then "-" else "")) with 0 by (now destruct (n <? 0)).
  rewrite Hv. cbn [spelled]. rewrite Hd1, Hw1, Hd0, Hw0.
  replace (is_digit_char ".") with false by reflexivity.
  pose proof (Z.div_mod x 10 ltac:(lia)).
  pose proof (Z.div_mod (x / 10) 10 ltac:(lia)).
  rewrite Z.div_div in * by lia. change (10 * 10) with 100 in *. lia.
Qed.

Lemma spelled_negative_amount n : spelled_negative (two_decimal_currency n) = (n <? 0).
Proof.
  unfold two_decimal_currency. destruct (n <? 0); [reflexivity|].
  destruct (digits_head (Z.abs n / 100)) as (c & rest & -> & Hc).
  { apply Z.div_pos; [apply Z.abs_nonneg | lia]. }
  repeat rewrite ?append_cons, ?append_nil. cbn [spelled_negative].
  destruct (Ascii.eqb_spec c "-"%char) as [->|]; [discriminate Hc | reflexivity].
Qed.

(** X18: formatPaystackAmount never shows two different integer amounts
    (of magnitude below 2^52) the same way: the amount can be read back from
    the rendered text. *)
Theorem formatPaystackAmount_tells_amounts_apart W a b :
  - 2 ^ 52 < a < 2 ^ 52 ->
  - 2 ^ 52 < b < 2 ^ 52 ->
  a <> b ->
  formatPaystackAmount W (VNum a) <> formatPaystackAmount W (VNum b).
Proof.
  intros _ _ Hne Heq. rewrite !formatPaystackAmount_spells in Heq.
  pose proof (spelled_amount a) as Ha. pose proof (spelled_amount b) as Hb.
  pose proof (spelled_negative_amount a) as Sa. pose proof (spelled_negative_amount b) as Sb.
  rewrite Heq in Ha, Sa. rewrite Ha in Hb. rewrite Sa in Sb.
  destruct (Z.ltb_spec a 0), (Z.ltb_spec b 0); try discriminate Sb; lia.
Qed.

End ReadBack.

Lemma formatPaystackAmount_tells_amounts_apart_witness :
  formatPaystackAmount Fake.live (VNum 39900) <> formatPaystackAmount Fake.live (VNum 3990).
Proof.
  apply (formatPaystackAmount_tells_amounts_apart Fake.live 39900 3990); lia.
Defined.

(** ** The customer lookup URL *)
Section Lookup.
Variable W : World.





End Lookup.

